(** * Price-history store and alert evaluation of the One Piece TCG monitor

    A shallow embedding of [models.py], [price_tracker.py] and
    [alert_system.py] (with the loop body of [main.py]'s [check_prices]),
    followed by the properties of the store and of the alert evaluator.

    Modelling conventions.
    - Prices are Python floats (binary64).  A float is modelled as the
      rational it denotes, in [Q]; comparisons are the boolean ones of
      [QArith], and Python's truthiness of an [Optional[float]] ([None] and
      [0.0] are falsy) is [truthy_price].  The arithmetic of the source
      ([-], [/], [*] and [float(...)]) rounds its exact result to the nearest
      binary64, ties to even ([round64]).  Results of magnitude 2^1024 and
      more, which Python holds as [inf], are outside the model.
    - A naive [datetime] is a number of microseconds on the local time line,
      a [timedelta] a number of microseconds; both are [Z].
    - Every [datetime.now()] of the source is an explicit argument.
    - The files are a finite map from paths, as [pathlib] normalises them on
      POSIX (root and components), to file contents; [..] components and
      links are not resolved.  The in-memory caches are finite maps keyed by
      card id. *)

From Stdlib Require Import ZArith QArith Qabs Lia Lqa String Ascii List Bool.
From Stdlib Require Import Permutation Sorted.
From stdpp Require Import base option list gmap strings.

Local Open Scope Z_scope.

(** ** Binary64 arithmetic *)

(** The integer [k] with [2^k <= n/d < 2^(k+1)], for positive [n] and [d]. *)
Definition floor_log2 (n d : Z) : Z :=
  let k := Z.log2 n - Z.log2 d in
  if (if 0 <=? k then d * 2 ^ k <=? n else d <=? n * 2 ^ (- k)) then k else k - 1.

(** The integer nearest to [a/b], the even one of two at equal distance. *)
Definition round_half_even (a b : Z) : Z :=
  let fl := a / b in
  match 2 * (a mod b) ?= b with
  | Lt => fl
  | Gt => fl + 1
  | Eq => if Z.even fl then fl else fl + 1
  end.

(** The binary64 nearest to [n/d], for positive [n] and [d]: a multiple of
    [2^e], where [e] leaves 53 significant bits and is at least -1074 (the
    spacing of the subnormal numbers). *)
Definition round64_pos (n d : Z) : Q :=
  let e := Z.max (floor_log2 n d - 52) (-1074) in
  if 0 <=? e
  then inject_Z (round_half_even n (d * 2 ^ e) * 2 ^ e)
  else round_half_even (n * 2 ^ (- e)) d # Z.to_pos (2 ^ (- e)).

Definition round64 (q : Q) : Q :=
  let r := Qred q in
  match Qnum r with
  | Z0 => 0%Q
  | Zpos n => round64_pos (Zpos n) (Zpos (Qden r))
  | Zneg n => (- round64_pos (Zpos n) (Zpos (Qden r)))%Q
  end.

(** [a - b], [a / b] (for a nonzero [b]) and [a * b] on floats *)
Definition fsub (a b : Q) : Q := round64 (a - b).
Definition fdiv (a b : Q) : Q := round64 (a / b).
Definition fmul (a b : Q) : Q := round64 (a * b).

(** ** models.py *)

Record Card := mkCard {
  name : string;
  card_set : string;            (* the field [set] of the source *)
  rarity : string;
  condition : string;
  language : string;
  number : option string;
  target_price : option Q;
  enabled : bool
}.

Record PriceData := mkPriceData {
  card_id : string;
  timestamp : Z;
  market_price : option Q;
  lowest_price : option Q;
  listing_count : Z;
  tcgplayer_url : option string
}.

Record AlertThresholds := mkAlertThresholds {
  price_drop_percent : Q;
  drop_timeframe_hours : Z;
  low_inventory_threshold : Z;
  spike_ignore_percent : Q;
  spike_ignore_hours : Z
}.

(** [s.replace(" ", "_")] *)
Fixpoint replace_spaces (s : string) : string :=
  match s with
  | EmptyString => EmptyString
  | String c s' =>
      String (if Ascii.eqb c " "%char then "_"%char else c) (replace_spaces s')
  end.

(** Truthiness of an [Optional[str]]: [None] and the empty string are falsy. *)
Definition truthy_str (o : option string) : bool :=
  match o with
  | Some EmptyString | None => false
  | Some _ => true
  end.

(** Truthiness of an [Optional[float]]: [None] and zero are falsy. *)
Definition truthy_price (o : option Q) : bool :=
  match o with
  | Some q => negb (Qeq_bool q 0)
  | None => false
  end.

(** [l.insert(i, x)] for a non-negative index. *)
Definition py_insert {A} (i : nat) (x : A) (l : list A) : list A :=
  take i l ++ x :: drop i l.

(** [Card.get_identifier] *)
Definition get_identifier (c : Card) : string :=
  let parts := [name c; card_set c; rarity c; language c] in
  let parts :=
    if truthy_str (number c) then py_insert 2 (default ""%string (number c)) parts
    else parts in
  String.concat "_"%string (map replace_spaces parts).

(** [PriceData.get_effective_price]: [self.market_price or self.lowest_price] *)
Definition get_effective_price (pd : PriceData) : option Q :=
  if truthy_price (market_price pd) then market_price pd else lowest_price pd.

(** Equality of two optional floats, as [==] decides it. *)
Definition opt_price_eqb (a b : option Q) : bool :=
  match a, b with
  | Some x, Some y => Qeq_bool x y
  | None, None => true
  | _, _ => false
  end.

Definition opt_str_eqb (a b : option string) : bool :=
  match a, b with
  | Some x, Some y => String.eqb x y
  | None, None => true
  | _, _ => false
  end.

(** The [__eq__] that [@dataclass] generates for [PriceData]: the tuples of
    fields are compared. *)
Definition PriceData_eqb (a b : PriceData) : bool :=
  String.eqb (card_id a) (card_id b)
  && Z.eqb (timestamp a) (timestamp b)
  && opt_price_eqb (market_price a) (market_price b)
  && opt_price_eqb (lowest_price a) (lowest_price b)
  && Z.eqb (listing_count a) (listing_count b)
  && opt_str_eqb (tcgplayer_url a) (tcgplayer_url b).

(** The reasons of an alert.  The source formats each as a sentence; the
    constructors keep the numbers the sentence is built from. *)
Inductive reason :=
  | TargetReached (current target : Q)
  | PriceDropped (drop_percent past current : Q) (hours : Z)
  | ThirtyDayLow (current low : Q)
  | LowInventory (listings : Z).

Record PriceAlert := mkPriceAlert {
  card : Card;
  current_price : PriceData;
  previous_price : option PriceData;
  alert_reasons : list reason;
  alert_timestamp : Z             (* the field [timestamp] of the source *)
}.

(** ** price_tracker.py *)

(** *** The persisted log

    A history file holds a JSON array of objects with the keys [card_id],
    [timestamp], [market_price], [lowest_price], [listing_count] and
    [tcgplayer_url].  A key that is present carries a value of the type the
    dataclass annotates; for the two prices and the URL an absent key and a
    JSON [null] are the same to [dict.get].  The string under [timestamp] is
    kept as what [datetime.fromisoformat] makes of it: the naive datetime it
    denotes, or a failure. *)

Inductive json_timestamp :=
  | IsoString (t : Z)       (* [t.isoformat()] *)
  | NotIso.                 (* anything [fromisoformat] raises on *)

Record json_entry := mkEntry {
  e_card_id : option string;           (* [None]: the key is missing *)
  e_timestamp : option json_timestamp; (* [None]: the key is missing *)
  e_market_price : option Q;
  e_lowest_price : option Q;
  e_listing_count : option Z;          (* [None]: the key is missing *)
  e_tcgplayer_url : option string
}.

Inductive json_item :=
  | JDict (e : json_entry)
  | JOther.                 (* an array element that is not an object *)

Inductive file_content :=
  | Records (data : list json_item)
  | Corrupt.                (* unreadable, not JSON, or not an array *)

(** *** Paths

    What [pathlib.PurePosixPath] keeps of a text: the root ([""] for a
    relative path, ["/"], or ["//"] for exactly two leading slashes) and the
    components between slashes, the empty ones and ["."] left out. *)
Abbreviation path := (string * list string)%type.

(** [s.split("/")] *)
Fixpoint split_slash (s : string) : list string :=
  match s with
  | EmptyString => [EmptyString]
  | String a s' =>
      if Ascii.eqb a "/"%char then EmptyString :: split_slash s'
      else
        match split_slash s' with
        | part :: parts => String a part :: parts
        | [] => [String a EmptyString]
        end
  end.

Definition starts_with_slash (s : string) : bool :=
  match s with
  | String a _ => Ascii.eqb a "/"%char
  | EmptyString => false
  end.

Definition string_tail (s : string) : string :=
  match s with
  | String _ s' => s'
  | EmptyString => EmptyString
  end.

Definition path_root (s : string) : string :=
  if starts_with_slash s then
    if starts_with_slash (string_tail s)
       && negb (starts_with_slash (string_tail (string_tail s)))
    then "//"%string else "/"%string
  else ""%string.

Definition path_parts (s : string) : list string :=
  List.filter (λ part, negb (String.eqb part "" || String.eqb part "."))
              (split_slash s).

(** [dir / s]: a text with a root replaces [dir]. *)
Definition path_join (dir : path) (s : string) : path :=
  if String.eqb (path_root s) "" then (fst dir, (snd dir ++ path_parts s)%list)
  else (path_root s, path_parts s).

(** [Path("data")], the [data_dir] that [main.py] passes and the default of
    [PriceTracker.__init__] *)
Definition data_dir : path := (""%string, ["data"%string]).

Record PriceTracker := mkPriceTracker {
  files : gmap path file_content;              (* the file system *)
  price_history : gmap string (list PriceData) (* the in-memory cache *)
}.

Definition timedelta_hours (h : Z) : Z := h * 3600000000.
Definition timedelta_days (d : Z) : Z := d * 86400000000.

(** [PriceTracker.get_history_file]:
    [self.data_dir / f"{card_id}_history.json"] *)
Definition get_history_file (cid : string) : path :=
  path_join data_dir (cid ++ "_history.json")%string.

(** [json.load(f)]; [None] stands for the exception. *)
Definition json_load (c : file_content) : option (list json_item) :=
  match c with
  | Records data => Some data
  | Corrupt => None
  end.

Definition fromisoformat (s : json_timestamp) : option Z :=
  match s with
  | IsoString t => Some t
  | NotIso => None
  end.

(** [datetime.fromisoformat(entry['timestamp'])]; [None] when it raises. *)
Definition entry_timestamp (it : json_item) : option Z :=
  match it with
  | JDict e => s ← e_timestamp e; fromisoformat s
  | JOther => None
  end.

(** The [PriceData(...)] built from one array element in [load_history];
    [None] when one of [item['card_id']], [item['timestamp']] or
    [fromisoformat] raises. *)
Definition parse_item (it : json_item) : option PriceData :=
  match it with
  | JDict e =>
      cid ← e_card_id e;
      s ← e_timestamp e;
      ts ← fromisoformat s;
      Some {| card_id := cid;
              timestamp := ts;
              market_price := e_market_price e;
              lowest_price := e_lowest_price e;
              listing_count := default 0 (e_listing_count e);
              tcgplayer_url := e_tcgplayer_url e |}
  | JOther => None
  end.

(** [history.sort(key=lambda x: x.timestamp, reverse=True)]: a stable sort,
    records with equal timestamps keep their order. *)
Fixpoint insert_newest_first (x : PriceData) (l : list PriceData) : list PriceData :=
  match l with
  | [] => [x]
  | y :: l' =>
      if timestamp x <? timestamp y
      then y :: insert_newest_first x l'
      else x :: l
  end.

Definition sort_newest_first (l : list PriceData) : list PriceData :=
  foldr insert_newest_first [] l.

Definition set_history (tr : PriceTracker) (cid : string) (h : list PriceData)
  : PriceTracker :=
  {| files := files tr; price_history := <[cid := h]> (price_history tr) |}.

(** [PriceTracker.load_history] *)
Definition load_history (tr : PriceTracker) (c : Card)
  : list PriceData * PriceTracker :=
  let cid := get_identifier c in
  match files tr !! get_history_file cid with
  | None => ([], tr)
  | Some content =>
      match data ← json_load content; mapM parse_item data with
      | Some history =>
          let history := sort_newest_first history in
          (history, set_history tr cid history)
      | None => ([], tr)                (* [except Exception] *)
      end
  end.

(** The dictionary [new_entry] of [save_price_data] *)
Definition new_entry (pd : PriceData) : json_item :=
  JDict {| e_card_id := Some (card_id pd);
           e_timestamp := Some (IsoString (timestamp pd));
           e_market_price := market_price pd;
           e_lowest_price := lowest_price pd;
           e_listing_count := Some (listing_count pd);
           e_tcgplayer_url := tcgplayer_url pd |}.

(** The comprehension that keeps the entries newer than [cutoff]; [None]
    when reading an entry's timestamp raises. *)
Fixpoint keep_recent (cutoff : Z) (data : list json_item) : option (list json_item) :=
  match data with
  | [] => Some []
  | entry :: rest =>
      ts ← entry_timestamp entry;
      rest' ← keep_recent cutoff rest;
      Some (if cutoff <? ts then entry :: rest' else rest')
  end.

(** What writing the file back does: it succeeds, or it raises and leaves
    [residue] as the file ([None]: no file). *)
Inductive write_outcome :=
  | WriteOk
  | WriteFails (residue : option file_content).

(** [PriceTracker.save_price_data].  The whole body is in a [try]; the
    handler only logs. *)
Definition save_price_data (tr : PriceTracker) (pd : PriceData) (now : Z)
    (w : write_outcome) : PriceTracker :=
  let cid := card_id pd in
  let history_file := get_history_file cid in
  let loaded :=
    match files tr !! history_file with
    | Some content => json_load content
    | None => Some []
    end in
  match data ← loaded; keep_recent (now - timedelta_days 90) (data ++ [new_entry pd]) with
  | None => tr                          (* raised before the write *)
  | Some data =>
      match w with
      | WriteFails residue =>
          {| files := partial_alter (λ _, residue) history_file (files tr);
             price_history := price_history tr |}
      | WriteOk =>
          {| files := <[history_file := Records data]> (files tr);
             price_history :=
               <[cid := pd :: default [] (price_history tr !! cid)]>
                 (price_history tr) |}
      end
  end.

(** [PriceTracker.get_latest_price] *)
Definition get_latest_price (tr : PriceTracker) (c : Card)
  : option PriceData * PriceTracker :=
  match price_history tr !! get_identifier c with
  | Some (x :: _) => (Some x, tr)
  | _ => let '(history, tr') := load_history tr c in (head history, tr')
  end.

(** [if card_id not in self.price_history: self.load_history(card)] *)
Definition ensure_loaded (tr : PriceTracker) (c : Card) : PriceTracker :=
  match price_history tr !! get_identifier c with
  | Some _ => tr
  | None => snd (load_history tr c)
  end.

(** [min(l)] and [min(l, key=...)] with [lt] the comparison of the keys: the
    first of the minimal elements. *)
Definition py_min {A} (lt : A → A → bool) (l : list A) : option A :=
  match l with
  | [] => None
  | x :: l' => Some (foldl (λ best y, if lt y best then y else best) x l')
  end.

Definition py_max {A} (lt : A → A → bool) (l : list A) : option A :=
  match l with
  | [] => None
  | x :: l' => Some (foldl (λ best y, if lt best y then y else best) x l')
  end.

(** [abs((x.timestamp - target_time).total_seconds())], in microseconds.
    [total_seconds()] is the float nearest to the count of microseconds
    divided by 10^6; for distances of less than a century two distances
    compare as floats the way their counts of microseconds compare. *)
Definition time_distance (target_time : Z) (x : PriceData) : Z :=
  Z.abs (timestamp x - target_time).

(** [PriceTracker.get_price_at_timeframe] *)
Definition get_price_at_timeframe (tr : PriceTracker) (c : Card) (hours_ago : Z)
    (now : Z) : option PriceData * PriceTracker :=
  let tr := ensure_loaded tr c in
  match price_history tr !! get_identifier c with
  | None | Some [] => (None, tr)
  | Some history =>
      let target_time := now - timedelta_hours hours_ago in
      (py_min (λ x y, time_distance target_time x <? time_distance target_time y)
              history, tr)
  end.

Definition Qlt_bool (x y : Q) : bool := negb (Qle_bool y x).

(** The comprehension [recent_prices] of [get_30_day_low] and
    [get_highest_price_in_period] *)
Definition recent_prices (cutoff_date : Z) (history : list PriceData) : list Q :=
  omap (λ pd, if cutoff_date <? timestamp pd then get_effective_price pd else None)
       history.

(** [PriceTracker.get_30_day_low] *)
Definition get_30_day_low (tr : PriceTracker) (c : Card) (now : Z)
  : option Q * PriceTracker :=
  let tr := ensure_loaded tr c in
  match price_history tr !! get_identifier c with
  | None | Some [] => (None, tr)
  | Some history =>
      (py_min Qlt_bool (recent_prices (now - timedelta_days 30) history), tr)
  end.

(** [PriceTracker.get_highest_price_in_period] *)
Definition get_highest_price_in_period (tr : PriceTracker) (c : Card) (hours : Z)
    (now : Z) : option Q * PriceTracker :=
  let tr := ensure_loaded tr c in
  match price_history tr !! get_identifier c with
  | None | Some [] => (None, tr)
  | Some history =>
      (py_max Qlt_bool (recent_prices (now - timedelta_hours hours) history), tr)
  end.

(** ** alert_system.py *)

Record AlertSystem := mkAlertSystem {
  price_tracker : PriceTracker;
  thresholds : AlertThresholds;
  last_alert_times : gmap string Z
}.

Definition with_tracker (sys : AlertSystem) (tr : PriceTracker) : AlertSystem :=
  {| price_tracker := tr;
     thresholds := thresholds sys;
     last_alert_times := last_alert_times sys |}.

(** The readings of [datetime.now()] during one call of
    [check_alert_conditions], in the order of the source: at the cooldown
    gate, in the two look-ups of [get_price_at_timeframe] (drop, spike), in
    [get_30_day_low], when the alert is built and when the cooldown is
    recorded. *)
Record clock := mkClock {
  t_gate : Z;
  t_drop : Z;
  t_low : Z;
  t_spike : Z;
  t_alert : Z;
  t_stamp : Z
}.

(** The cooldown gate: [card_id in self.last_alert_times] and
    [now - last < timedelta(hours=cooldown_hours)]. *)
Definition cooldown_active (sys : AlertSystem) (cid : string) (cooldown_hours : Z)
    (now : Z) : bool :=
  match last_alert_times sys !! cid with
  | Some last => now - last <? timedelta_hours cooldown_hours
  | None => false
  end.

(** Check 1: price below target *)
Definition check_target (c : Card) (current : Q) : list reason :=
  match target_price c with
  | Some target =>
      if truthy_price (Some target) && Qle_bool current target
      then [TargetReached current target] else []
  | None => []
  end.

(** Check 2: percentage drop within the time frame, given the look-up *)
Definition check_drop (th : AlertThresholds) (past_price_data : option PriceData)
    (current : Q) : list reason :=
  match past_price_data with
  | Some past =>
      match get_effective_price past with
      | Some past_price =>
          if truthy_price (Some past_price) then
            let drop_percent := fmul (fdiv (fsub past_price current) past_price) 100 in
            if Qle_bool (price_drop_percent th) drop_percent
            then [PriceDropped drop_percent past_price current
                               (drop_timeframe_hours th)]
            else []
          else []
      | None => []
      end
  | None => []
  end.

(** Check 3: at or below the 30-day low, given the low *)
Definition check_thirty_day_low (thirty_day_low : option Q) (current : Q)
  : list reason :=
  match thirty_day_low with
  | Some low =>
      if truthy_price (Some low) && Qle_bool current low
      then [ThirtyDayLow current low] else []
  | None => []
  end.

(** Check 4: low inventory *)
Definition check_inventory (th : AlertThresholds) (current_price : PriceData)
  : list reason :=
  if (0 <? listing_count current_price)
     && (listing_count current_price <=? low_inventory_threshold th)
  then [LowInventory (listing_count current_price)] else [].

(** [spike_percent] of [_is_price_spike] *)
Definition spike_percent (current past_price : Q) : Q :=
  fmul (fdiv (fsub current past_price) past_price) 100.

(** [AlertSystem._is_price_spike] *)
Definition _is_price_spike (sys : AlertSystem) (c : Card) (current_price : PriceData)
    (now : Z) : bool * AlertSystem :=
  if negb (truthy_price (get_effective_price current_price)) then (false, sys)
  else
    let current := default 0%Q (get_effective_price current_price) in
    let '(past_price_data, tr) :=
      get_price_at_timeframe (price_tracker sys) c
        (spike_ignore_hours (thresholds sys)) now in
    let sys := with_tracker sys tr in
    match past_price_data with
    | None => (false, sys)
    | Some past =>
        if negb (truthy_price (get_effective_price past)) then (false, sys)
        else
          let past_price := default 0%Q (get_effective_price past) in
          (Qle_bool (spike_ignore_percent (thresholds sys))
                    (spike_percent current past_price), sys)
    end.

(** The four checks of [check_alert_conditions], in the order of the source;
    the tracker is threaded through the two look-ups. *)
Definition collect_reasons (sys : AlertSystem) (c : Card) (current_price : PriceData)
    (current : Q) (clk : clock) : list reason * AlertSystem :=
  let th := thresholds sys in
  let r1 := check_target c current in
  let '(past_price_data, tr) :=
    get_price_at_timeframe (price_tracker sys) c (drop_timeframe_hours th)
      (t_drop clk) in
  let r2 := check_drop th past_price_data current in
  let '(thirty_day_low, tr) := get_30_day_low tr c (t_low clk) in
  let r3 := check_thirty_day_low thirty_day_low current in
  let r4 := check_inventory th current_price in
  ((r1 ++ r2 ++ r3 ++ r4)%list, with_tracker sys tr).

(** [AlertSystem.check_alert_conditions] *)
Definition check_alert_conditions (sys : AlertSystem) (c : Card)
    (current_price : PriceData) (cooldown_hours : Z) (clk : clock)
  : option PriceAlert * AlertSystem :=
  let cid := get_identifier c in
  if cooldown_active sys cid cooldown_hours (t_gate clk) then (None, sys)
  else
    match get_effective_price current_price with
    | None => (None, sys)
    | Some current =>
        let '(reasons, sys) := collect_reasons sys c current_price current clk in
        let '(spike, sys) := _is_price_spike sys c current_price (t_spike clk) in
        if spike then (None, sys)
        else
          match reasons with
          | [] => (None, sys)
          | _ :: _ =>
              let '(latest, tr) := get_latest_price (price_tracker sys) c in
              let previous :=
                match latest with
                | Some p => if PriceData_eqb p current_price then None else Some p
                | None => None
                end in
              let alert :=
                {| card := c;
                   current_price := current_price;
                   previous_price := previous;
                   alert_reasons := reasons;
                   alert_timestamp := t_alert clk |} in
              (Some alert,
               {| price_tracker := tr;
                  thresholds := thresholds sys;
                  last_alert_times :=
                    <[cid := t_stamp clk]> (last_alert_times sys) |})
          end
    end.

(** ** main.py: the body of the loop of [check_prices] for one card

    [fetched] is what the scraper returned, [now_save] and [w] the clock and
    the outcome of the write inside [save_price_data].  Formatting an absent
    effective price for the log raises, and the handler of the loop body
    moves on to the next card. *)
Definition check_prices_step (sys : AlertSystem) (c : Card)
    (fetched : option PriceData) (now_save : Z) (w : write_outcome)
    (cooldown : Z) (clk : clock) : option PriceAlert * AlertSystem :=
  if negb (enabled c) then (None, sys)
  else
    match fetched with
    | None => (None, sys)
    | Some price_data =>
        let sys :=
          with_tracker sys
            (save_price_data (price_tracker sys) price_data now_save w) in
        match get_effective_price price_data with
        | None => (None, sys)
        | Some _ => check_alert_conditions sys c price_data cooldown clk
        end
    end.

(** ** The rest of models.py, alert_system.py and main.py; notifier.py *)

(** [PriceAlert.get_price_change_percent] *)
Definition get_price_change_percent (a : PriceAlert) : option Q :=
  match previous_price a with
  | None => None
  | Some prev =>
      let current := get_effective_price (current_price a) in
      let previous := get_effective_price prev in
      if negb (truthy_price current) || negb (truthy_price previous)
         || opt_price_eqb previous (Some 0%Q)
      then None
      else
        Some (fmul (fdiv (fsub (default 0%Q current) (default 0%Q previous))
                         (default 0%Q previous)) 100)
  end.

(** [AlertSystem.get_all_alerts].  [clocks i] holds the clock readings of the
    evaluation of the card at position [i] of the list; [i] is the position
    of the head of [cards]. *)
Fixpoint get_all_alerts_from (i : nat) (sys : AlertSystem) (cards : list Card)
    (cooldown_hours : Z) (clocks : nat → clock) : list PriceAlert * AlertSystem :=
  match cards with
  | [] => ([], sys)
  | c :: rest =>
      if negb (enabled c)
      then get_all_alerts_from (S i) sys rest cooldown_hours clocks
      else
        let '(latest_price, tr) := get_latest_price (price_tracker sys) c in
        let sys := with_tracker sys tr in
        match latest_price with
        | None => get_all_alerts_from (S i) sys rest cooldown_hours clocks
        | Some latest =>
            let '(alert, sys) :=
              check_alert_conditions sys c latest cooldown_hours (clocks i) in
            let '(alerts, sys) :=
              get_all_alerts_from (S i) sys rest cooldown_hours clocks in
            (match alert with Some a => a :: alerts | None => alerts end, sys)
        end
  end.

Definition get_all_alerts (sys : AlertSystem) (cards : list Card)
    (cooldown_hours : Z) (clocks : nat → clock) : list PriceAlert * AlertSystem :=
  get_all_alerts_from 0 sys cards cooldown_hours clocks.

(** What one turn of the loop of [check_prices] meets: the result of the
    scraper, the clock and the outcome of the write of the save, the clock
    readings of the evaluation. *)
Record cycle_input := mkCycleInput {
  fetched : option PriceData;
  now_save : Z;
  write : write_outcome;
  readings : clock
}.

(** The loop of [PriceMonitor.check_prices]: the alerts triggered, in the
    order of the cards, and the evaluator after the cycle.  [inputs i] is
    what the turn of the card at position [i] meets. *)
Fixpoint check_prices_from (i : nat) (sys : AlertSystem) (cards : list Card)
    (cooldown : Z) (inputs : nat → cycle_input) : list PriceAlert * AlertSystem :=
  match cards with
  | [] => ([], sys)
  | c :: rest =>
      let inp := inputs i in
      let '(alert, sys) :=
        check_prices_step sys c (fetched inp) (now_save inp) (write inp)
          cooldown (readings inp) in
      let '(alerts, sys) := check_prices_from (S i) sys rest cooldown inputs in
      (match alert with Some a => a :: alerts | None => alerts end, sys)
  end.

(** [DiscordNotifier], [send_alert] and [send_multiple_alerts] of notifier.py.
    [post_ok k] tells whether the request number [k] to the webhook
    succeeds; the state threaded through is the number of requests made.
    Building the embed raises on no alert. *)
Record DiscordNotifier := mkDiscordNotifier {
  webhook_url : string;
  notifier_enabled : bool          (* the field [enabled] of the source *)
}.

(** [DiscordNotifier.__init__] *)
Definition new_notifier (url : string) : DiscordNotifier :=
  {| webhook_url := url;
     notifier_enabled :=
       truthy_str (Some url)
       && negb (String.eqb url "YOUR_DISCORD_WEBHOOK_URL_HERE") |}.

Definition send_alert (n : DiscordNotifier) (post_ok : nat → bool)
    (alert : PriceAlert) (requests : nat) : bool * nat :=
  if negb (notifier_enabled n) then (false, requests)
  else (post_ok requests, S requests).

Definition send_multiple_alerts (n : DiscordNotifier) (post_ok : nat → bool)
    (alerts : list PriceAlert) (requests : nat) : Z * nat :=
  foldl (λ '(sent_count, requests) alert,
           let '(ok, requests) := send_alert n post_ok alert requests in
           (if ok then sent_count + 1 else sent_count, requests))
        (0, requests) alerts.

(** [PriceMonitor.check_prices]: the loop, then the alerts are sent if there
    are any.  The result is the alerts triggered, the evaluator after the
    cycle, the number of alerts sent and the number of requests made. *)
Definition check_prices (sys : AlertSystem) (n : DiscordNotifier)
    (cards : list Card) (cooldown : Z) (inputs : nat → cycle_input)
    (post_ok : nat → bool) (requests : nat)
  : list PriceAlert * AlertSystem * Z * nat :=
  let '(alerts_triggered, sys) := check_prices_from 0 sys cards cooldown inputs in
  let '(sent, requests) :=
    match alerts_triggered with
    | [] => (0, requests)
    | _ => send_multiple_alerts n post_ok alerts_triggered requests
    end in
  (alerts_triggered, sys, sent, requests).

(** A value of the YAML configuration, as far as [Card.get_identifier] tells
    values apart: a string, or a value that is not a string and is truthy (a
    number other than 0, [true], a date, a non-empty list) or falsy ([null],
    0, [false], an empty list). *)
Inductive yaml_value :=
  | YStr (s : string)
  | YTruthy
  | YFalsy.

(** One entry of the list [cards] of the configuration, a mapping: the keys
    [name], [set] and [rarity] are read with [card_config[...]], the others
    with [card_config.get(...)]; [None] is a missing key.  The values under
    [condition] and [target_price], which [_load_cards] only stores, are
    taken to be of the types the dataclass annotates; the value under
    [enabled] is kept as its truthiness, all that the source reads of it. *)
Record card_config := mkCardConfig {
  cfg_name : option yaml_value;
  cfg_set : option yaml_value;
  cfg_rarity : option yaml_value;
  cfg_condition : option string;
  cfg_language : option yaml_value;
  cfg_number : option yaml_value;
  cfg_target_price : option Q;
  cfg_enabled : option bool
}.

(** A value that [get_identifier] can put in the key: [p.replace(...)] and
    [join] raise on anything but a string. *)
Definition as_str (v : yaml_value) : option string :=
  match v with
  | YStr s => Some s
  | YTruthy | YFalsy => None
  end.

(** The [number] of the card: [get_identifier] and every other reader test
    its truthiness first, so a falsy value that is not a string reads as
    [None]; a truthy one that is not a string makes [get_identifier]
    raise. *)
Definition number_of_config (v : option yaml_value) : option (option string) :=
  match v with
  | Some (YStr s) => Some (Some s)
  | Some YTruthy => None
  | Some YFalsy | None => Some None
  end.

(** The [Card(...)] built from one entry, as far as the loop of
    [_load_cards] gets with it; [None] when a required key is missing (a
    [KeyError]) or when [get_identifier], which [load_history] calls first,
    raises on a value that is not a string.  Nothing catches either. *)
Definition card_of_config (cc : card_config) : option Card :=
  n ← cfg_name cc ≫= as_str;
  s ← cfg_set cc ≫= as_str;
  r ← cfg_rarity cc ≫= as_str;
  l ← as_str (default (YStr "English") (cfg_language cc));
  num ← number_of_config (cfg_number cc);
  Some {| name := n; card_set := s; rarity := r;
          condition := default "Near Mint"%string (cfg_condition cc);
          language := l;
          number := num;
          target_price := cfg_target_price cc;
          enabled := default true (cfg_enabled cc) |}.

(** [PriceMonitor._load_cards]: every card is built and its history loaded,
    in the order of the configuration. *)
Fixpoint _load_cards (tr : PriceTracker) (card_configs : list card_config)
  : option (list Card * PriceTracker) :=
  match card_configs with
  | [] => Some ([], tr)
  | cc :: rest =>
      c ← card_of_config cc;
      '(cards, tr') ← _load_cards (snd (load_history tr c)) rest;
      Some (c :: cards, tr')
  end.

(** ** scraper.py *)

(** A text ([str]) is the list of its code points. *)
Abbreviation text := (list N).

(** The full stop *)
Definition dot : N := 46.

(** [\d] of [re] on a [str]: any decimal digit of Unicode.  [decimal] is the
    table of these digits with their values (category Nd of the Unicode data
    of the interpreter), which [float] reads by their values as well. *)
Definition is_digit (decimal : N → option N) (c : N) : bool :=
  match decimal c with
  | Some _ => true
  | None => false
  end.

(** [re.sub(r'[^\d.]', '', price_text)] *)
Fixpoint clean_price_text (decimal : N → option N) (s : text) : text :=
  match s with
  | [] => []
  | a :: s' =>
      if is_digit decimal a || (a =? dot)%N
      then a :: clean_price_text decimal s' else clean_price_text decimal s'
  end.

(** The number a run of decimal digits denotes, after the digits [acc]. *)
Fixpoint digits_value (decimal : N → option N) (acc : N) (s : text) : N :=
  match s with
  | [] => acc
  | a :: s' =>
      digits_value decimal (10 * acc + default 0%N (decimal a))%N s'
  end.

(** [s] up to its first dot, and what follows that dot if there is one. *)
Fixpoint split_at_dot (s : text) : text * option text :=
  match s with
  | [] => ([], None)
  | a :: s' =>
      if (a =? dot)%N then ([], Some s')
      else let '(before, after) := split_at_dot s' in (a :: before, after)
  end.

Fixpoint has_dot (s : text) : bool :=
  match s with
  | [] => false
  | a :: s' => (a =? dot)%N || has_dot s'
  end.

(** [float(clean_text)] on a text of digits and dots; [None] is the
    [ValueError].  The text must be digits, or digits with one dot and a
    digit on at least one side of it.  The value is the binary64 nearest to
    the decimal. *)
Definition float_of_digits_and_dots (decimal : N → option N) (s : text)
  : option Q :=
  match split_at_dot s with
  | (whole, None) =>
      match whole with
      | [] => None
      | _ => Some (round64 (inject_Z (Z.of_N (digits_value decimal 0 whole))))
      end
  | (whole, Some fraction) =>
      if has_dot fraction then None
      else
        match whole, fraction with
        | [], [] => None
        | _, _ =>
            Some (round64
                    (inject_Z (Z.of_N (digits_value decimal 0 whole))
                     + inject_Z (Z.of_N (digits_value decimal 0 fraction))
                       / inject_Z (10 ^ Z.of_nat (length fraction))))
        end
  end.

(** [TCGPlayerScraper._parse_price] *)
Definition _parse_price (decimal : N → option N) (price_text : text)
  : option Q :=
  let clean_text := clean_price_text decimal price_text in
  match clean_text with
  | [] => None
  | _ => float_of_digits_and_dots decimal clean_text
  end.

(** What the look-ups in the product page give: the text of the market
    price element and of the lowest listing element when they are found, and
    the first number in the text that counts the sellers when that is found. *)
Record product_page := mkProductPage {
  market_price_text : option text;
  lowest_price_text : option text;
  sellers : option N
}.

(** [TCGPlayerScraper.get_price_data].  [searched] is what [search_card]
    returns when it is asked, [page] the product page, [None] when the
    request raises. *)
Definition get_price_data (decimal : N → option N) (c : Card)
    (product_url : option string) (searched : option string)
    (page : option product_page) (now : Z) : option PriceData :=
  let product_url := if truthy_str product_url then product_url else searched in
  if negb (truthy_str product_url) then None
  else
    match page with
    | None => None
    | Some pg =>
        let price_data :=
          {| card_id := get_identifier c;
             timestamp := now;
             market_price :=
               text ← market_price_text pg; _parse_price decimal text;
             lowest_price :=
               text ← lowest_price_text pg; _parse_price decimal text;
             listing_count := default 0 (Z.of_N <$> sellers pg);
             tcgplayer_url := product_url |} in
        match get_effective_price price_data with
        | None => None
        | Some _ => Some price_data
        end
    end.

(** * Vocabulary of the statements

    Predicates and derived functions the theorems are stated with, the
    claims that fail in the wording they were made, and the concrete stores
    and evaluators of the examples. *)

(** The key as the claim words it: the serial number after the rarity. *)
Definition identifier_number_after_rarity (c : Card) : string :=
  let parts :=
    match number c with
    | Some n => [name c; card_set c; rarity c; n; language c]
    | None => [name c; card_set c; rarity c; language c]
    end in
  String.concat "_"%string (map replace_spaces parts).

Definition luffy : Card :=
  {| name := "Monkey D Luffy"; card_set := "OP01"; rarity := "SR";
     condition := "Near Mint"; language := "English";
     number := Some "001"%string; target_price := Some (50 # 1);
     enabled := true |}.

(** The effective price as the claim words it: the market price whenever it
    is present, zero included. *)
Definition effective_price_as_claimed (pd : PriceData) : Prop :=
  (∀ m, market_price pd = Some m → get_effective_price pd = Some m)
  ∧ (market_price pd = None → get_effective_price pd = lowest_price pd).

Definition free_market_listing : PriceData :=
  {| card_id := "Monkey_D_Luffy_OP01_001_SR_English"; timestamp := 0;
     market_price := Some 0%Q; lowest_price := Some (5 # 1)%Q;
     listing_count := 3; tcgplayer_url := None |}.

Definition newest_first (l : list PriceData) : Prop :=
  StronglySorted (λ a b, timestamp b ≤ timestamp a) l.

(** The observations a log holds when every record of it is well formed;
    [None] when the file is corrupt or one record is malformed.  No file is
    an empty log. *)
Definition persisted_records (tr : PriceTracker) (cid : string)
  : option (list PriceData) :=
  match files tr !! get_history_file cid with
  | Some content => data ← json_load content; mapM parse_item data
  | None => Some []
  end.

Definition obs (t : Z) (market lowest : option Q) : PriceData :=
  {| card_id := get_identifier luffy; timestamp := timedelta_hours t;
     market_price := market; lowest_price := lowest;
     listing_count := 10; tcgplayer_url := None |}.

(** A record without the key [timestamp]. *)
Definition entry_without_timestamp : json_item :=
  JDict {| e_card_id := Some (get_identifier luffy); e_timestamp := None;
           e_market_price := Some (47 # 1)%Q; e_lowest_price := None;
           e_listing_count := Some 4; e_tcgplayer_url := None |}.

Definition log_with_one_malformed : list json_item :=
  [new_entry (obs 10 (Some (45 # 1)%Q) None); entry_without_timestamp;
   new_entry (obs 20 (Some (46 # 1)%Q) None)].

Definition tracker_with_one_malformed : PriceTracker :=
  {| files := {[ get_history_file (get_identifier luffy) :=
                   Records log_with_one_malformed ]};
     price_history := ∅ |}.

(** The load as the claim words it: only the malformed records are dropped,
    the well-formed ones are returned. *)
Definition load_drops_only_malformed (tr : PriceTracker) (c : Card) : Prop :=
  ∀ data,
    files tr !! get_history_file (get_identifier c) = Some (Records data) →
    Permutation (fst (load_history tr c)) (omap parse_item data).

Definition hour : Z := 3600000000.
Definition day : Z := 86400000000.

(** A log with one record 100 days old and one record 2 days old, seen from
    day 200. *)
Definition aged_log_tracker : PriceTracker :=
  {| files := {[ get_history_file (get_identifier luffy) :=
                   Records [new_entry (obs (100 * 24) (Some (52 # 1)%Q) None);
                            new_entry (obs (198 * 24) (Some (48 # 1)%Q) None)] ]};
     price_history := ∅ |}.

(** The save as the claim words it: after a failed write the latest
    observation of the card is the one just saved. *)
Definition failed_write_still_cached (tr : PriceTracker) (pd : PriceData)
    (now : Z) (c : Card) : Prop :=
  ∀ residue,
    fst (get_latest_price (save_price_data tr pd now (WriteFails residue)) c)
    = Some pd.

Definition empty_tracker : PriceTracker := {| files := ∅; price_history := ∅ |}.

(** A cache that holds one observation, with no file behind it. *)
Definition cached_tracker : PriceTracker :=
  {| files := ∅;
     price_history := {[ get_identifier luffy := [obs 99 (Some (40 # 1)%Q) None] ]} |}.

Definition is_thirty_day_low (r : reason) : bool :=
  match r with ThirtyDayLow _ _ => true | _ => false end.

Definition default_thresholds : AlertThresholds :=
  {| price_drop_percent := 15; drop_timeframe_hours := 24;
     low_inventory_threshold := 5; spike_ignore_percent := 30;
     spike_ignore_hours := 6 |}.

Definition all_at (t : Z) : clock :=
  {| t_gate := t; t_drop := t; t_low := t; t_spike := t; t_alert := t;
     t_stamp := t |}.

(** The rule as the claim words it: whenever the 30-day low is defined, a
    30-day-low reason is collected exactly when the current price is at or
    below it. *)
Definition thirty_day_low_as_claimed (sys : AlertSystem) (c : Card)
    (cp : PriceData) (current : Q) (clk : clock) : Prop :=
  ∀ low,
    fst (get_30_day_low (price_tracker sys) c (t_low clk)) = Some low →
    ((∃ a b, ThirtyDayLow a b ∈ fst (collect_reasons sys c cp current clk))
     ↔ (current <= low)%Q).

(** A card whose only cached observation was listed for 0. *)
Definition free_listing_system : AlertSystem :=
  {| price_tracker :=
       {| files := ∅;
          price_history := {[ get_identifier luffy := [obs 99 None (Some 0%Q)] ]} |};
     thresholds := default_thresholds;
     last_alert_times := ∅ |}.

(** The history of the scenario: effective prices 52, 48, 55, 48 within the
    last 30 days, newest first. *)
Definition scenario_system : AlertSystem :=
  {| price_tracker :=
       {| files := ∅;
          price_history :=
            {[ get_identifier luffy :=
                 [obs 96 (Some (52 # 1)%Q) None; obs 72 (Some (48 # 1)%Q) None;
                  obs 48 (Some (55 # 1)%Q) None; obs 24 (Some (48 # 1)%Q) None] ]} |};
     thresholds := default_thresholds;
     last_alert_times := ∅ |}.

(** The verdict of the anti-spike check. *)
Definition is_spike (sys : AlertSystem) (c : Card) (cp : PriceData) (now : Z)
  : bool :=
  fst (_is_price_spike sys c cp now).

Definition make_alert (sys : AlertSystem) (c : Card) (cp : PriceData)
    (reasons : list reason) (clk : clock) : PriceAlert :=
  {| card := c;
     current_price := cp;
     previous_price :=
       match fst (get_latest_price (price_tracker sys) c) with
       | Some p => if PriceData_eqb p cp then None else Some p
       | None => None
       end;
     alert_reasons := reasons;
     alert_timestamp := t_alert clk |}.

(** The percentage of the claim, over the rationals. *)
Definition exact_percent_change (new old : Q) : Q :=
  ((new - old) / old * 100)%Q.

(** The suppression as the claim words it. *)
Definition spike_suppression_as_claimed (sys : AlertSystem) (c : Card)
    (cp : PriceData) (d : Z) (clk : clock) : Prop :=
  ∀ current past past_price,
    get_effective_price cp = Some current →
    fst (get_price_at_timeframe (price_tracker sys) c
           (spike_ignore_hours (thresholds sys)) (t_spike clk)) = Some past →
    get_effective_price past = Some past_price →
    (0 < past_price)%Q →
    (spike_ignore_percent (thresholds sys)
     <= exact_percent_change current past_price)%Q →
    fst (check_alert_conditions sys c cp d clk) = None
    ∧ last_alert_times (snd (check_alert_conditions sys c cp d clk))
      = last_alert_times sys.

(** An evaluator told to ignore anything from -100 percent up, with one
    cached observation at 10. *)
Definition wide_spike_system : AlertSystem :=
  {| price_tracker :=
       {| files := ∅;
          price_history :=
            {[ get_identifier luffy := [obs 99 (Some (10 # 1)%Q) None] ]} |};
     thresholds :=
       {| price_drop_percent := 15; drop_timeframe_hours := 24;
          low_inventory_threshold := 5; spike_ignore_percent := -100;
          spike_ignore_hours := 6 |};
     last_alert_times := ∅ |}.

(** An evaluator told to ignore anything from 29 percent up and to report
    ten listings or fewer, with one cached observation at 100. *)
Definition threshold_spike_system : AlertSystem :=
  {| price_tracker :=
       {| files := ∅;
          price_history :=
            {[ get_identifier luffy := [obs 99 (Some (100 # 1)%Q) None] ]} |};
     thresholds :=
       {| price_drop_percent := 15; drop_timeframe_hours := 24;
          low_inventory_threshold := 10; spike_ignore_percent := 29;
          spike_ignore_hours := 6 |};
     last_alert_times := ∅ |}.

(** An evaluator with the default thresholds and one cached observation at
    30; the card's target is 50. *)
Definition spiking_system : AlertSystem :=
  {| price_tracker :=
       {| files := ∅;
          price_history :=
            {[ get_identifier luffy := [obs 95 (Some (30 # 1)%Q) None] ]} |};
     thresholds := default_thresholds;
     last_alert_times := ∅ |}.

(** A series of evaluations of one card, each with its observation and its
    clock readings. *)
Fixpoint check_repeatedly (sys : AlertSystem) (c : Card) (d : Z)
    (calls : list (PriceData * clock)) : list (option PriceAlert) * AlertSystem :=
  match calls with
  | [] => ([], sys)
  | (cp, clk) :: rest =>
      let '(a, sys) := check_alert_conditions sys c cp d clk in
      let '(alerts, sys) := check_repeatedly sys c d rest in
      (a :: alerts, sys)
  end.

(** An evaluator with the default thresholds and one cached observation at
    40; at 45 the target of 50 is reached and nothing has spiked. *)
Definition quiet_system : AlertSystem :=
  {| price_tracker :=
       {| files := ∅;
          price_history :=
            {[ get_identifier luffy := [obs 99 (Some (40 # 1)%Q) None] ]} |};
     thresholds := default_thresholds;
     last_alert_times := ∅ |}.

Definition alerted_system : AlertSystem :=
  snd (check_alert_conditions quiet_system luffy (obs 100 (Some (45 # 1)%Q) None)
         6 (all_at (100 * hour))).

(** The place of a reason in the order of the four checks. *)
Definition reason_rank (r : reason) : nat :=
  match r with
  | TargetReached _ _ => 1
  | PriceDropped _ _ _ _ => 2
  | ThirtyDayLow _ _ => 3
  | LowInventory _ => 4
  end.

(** [drop_percent] of [check_alert_conditions], in binary64 as the source
    computes it. *)
Definition drop_percent_of (current past_price : Q) : Q :=
  fmul (fdiv (fsub past_price current) past_price) 100.



(** An entry as YAML reads [number: 001], an integer. *)
Definition config_with_integer_number : card_config :=
  {| cfg_name := Some (YStr "Monkey D Luffy"); cfg_set := Some (YStr "OP01");
     cfg_rarity := Some (YStr "SR"); cfg_condition := None;
     cfg_language := None; cfg_number := Some YTruthy;
     cfg_target_price := Some (50 # 1)%Q; cfg_enabled := None |}.

(** The same entry with the number quoted. *)
Definition config_of_luffy : card_config :=
  {| cfg_name := Some (YStr "Monkey D Luffy"); cfg_set := Some (YStr "OP01");
     cfg_rarity := Some (YStr "SR"); cfg_condition := None;
     cfg_language := None; cfg_number := Some (YStr "001");
     cfg_target_price := Some (50 # 1)%Q; cfg_enabled := None |}.

(** No character of [s] is a slash. *)
Fixpoint slash_free (s : string) : bool :=
  match s with
  | EmptyString => true
  | String a s' => negb (Ascii.eqb a "/"%char) && slash_free s'
  end.

(** No character of [s] is a space. *)
Fixpoint space_free (s : string) : bool :=
  match s with
  | EmptyString => true
  | String a s' => negb (Ascii.eqb a " "%char) && space_free s'
  end.

Fixpoint has_digit (decimal : N → option N) (s : text) : bool :=
  match s with
  | [] => false
  | a :: s' => is_digit decimal a || has_digit decimal s'
  end.

Fixpoint dot_count (s : text) : nat :=
  match s with
  | [] => 0
  | a :: s' => ((if (a =? dot)%N then 1 else 0) + dot_count s')%nat
  end.

(** The code points of an ASCII text. *)
Definition text_of_string (s : string) : text :=
  N_of_ascii <$> list_ascii_of_string s.

(** The ASCII digits, which every table of decimal digits holds. *)
Definition ascii_digits (c : N) : option N :=
  if (48 <=? c)%N && (c <=? 57)%N then Some (c - 48)%N else None.

(** The ASCII digits and the Arabic-Indic ones, U+0660 to U+0669. *)
Definition ascii_and_arabic_indic_digits (c : N) : option N :=
  if (1632 <=? c)%N && (c <=? 1641)%N then Some (c - 1632)%N
  else ascii_digits c.

(** An alert over the cached observation at 40 of [quiet_system]. *)
Definition alert_with_previous : PriceAlert :=
  {| card := luffy; current_price := obs 100 (Some (45 # 1)%Q) None;
     previous_price := Some (obs 99 (Some (40 # 1)%Q) None);
     alert_reasons := [TargetReached (45 # 1) (50 # 1)];
     alert_timestamp := 100 * hour |}.

(** Every character is a digit or a dot. *)
Fixpoint digits_and_dots (decimal : N → option N) (s : text) : bool :=
  match s with
  | [] => true
  | a :: s' =>
      (is_digit decimal a || (a =? dot)%N) && digits_and_dots decimal s'
  end.

(** * Properties *)

(** ** Rounding *)

(** [round64] on values whose binary64 is known: a tenth; two integers
    halfway between neighbours (ties go to the even one); the halves of the
    smallest subnormal steps; and the change from 1.10 to 1.43, which the
    source computes as 29.99999999999998 percent. *)
Example round64_examples :
  (round64 (1 # 10) == 3602879701896397 # 36028797018963968)%Q
  ∧ (round64 (inject_Z (2 ^ 53 + 1)) == inject_Z (2 ^ 53))%Q
  ∧ (round64 (inject_Z (2 ^ 53 + 3)) == inject_Z (2 ^ 53 + 4))%Q
  ∧ (round64 (3 # 2 ^ 1075) == 1 # 2 ^ 1073)%Q
  ∧ (round64 (1 # 2 ^ 1075) == 0)%Q
  ∧ (round64 (- (7 # 2)) == - (7 # 2))%Q
  ∧ (fmul (fdiv (fsub (round64 (143 # 100)) (round64 (110 # 100)))
                (round64 (110 # 100))) 100
     == 8444249301319675 # 281474976710656)%Q.
Proof. split_and!; vm_compute; reflexivity. Qed.

Lemma round64_proper (x y : Q) : (x == y)%Q → round64 x = round64 y.
Proof. intros H. unfold round64. now rewrite (Qred_complete x y H). Qed.

Lemma round_half_even_nonneg (a b : Z) :
  0 <= a → 0 < b → 0 <= round_half_even a b.
Proof.
  intros Ha Hb. unfold round_half_even.
  assert (0 <= a / b) by (apply Z.div_pos; lia).
  destruct (2 * (a mod b) ?= b); [destruct (Z.even (a / b))| |]; lia.
Qed.

Lemma round64_pos_nonneg (n d : Z) : 0 < n → 0 < d → (0 <= round64_pos n d)%Q.
Proof.
  intros Hn Hd. unfold round64_pos.
  set (e := Z.max _ _).
  destruct (Z.leb_spec 0 e) as [He | He].
  - assert (0 < 2 ^ e) by (apply Z.pow_pos_nonneg; lia).
    assert (0 <= round_half_even n (d * 2 ^ e))
      by (apply round_half_even_nonneg; nia).
    unfold Qle; simpl. nia.
  - assert (0 < 2 ^ (- e)) by (apply Z.pow_pos_nonneg; lia).
    assert (0 <= round_half_even (n * 2 ^ (- e)) d)
      by (apply round_half_even_nonneg; nia).
    unfold Qle; simpl. lia.
Qed.

Lemma round64_nonneg (x : Q) : (0 <= x)%Q → (0 <= round64 x)%Q.
Proof.
  intros Hx. unfold round64. cbv zeta.
  assert (Hr : (0 <= Qred x)%Q) by now rewrite Qred_correct.
  destruct (Qred x) as [n d]. simpl. destruct n as [|n|n].
  - apply Qle_refl.
  - now apply round64_pos_nonneg.
  - unfold Qle in Hr; simpl in Hr. lia.
Qed.

Lemma round64_nonpos (x : Q) : (x <= 0)%Q → (round64 x <= 0)%Q.
Proof.
  intros Hx. unfold round64. cbv zeta.
  assert (Hr : (Qred x <= 0)%Q) by now rewrite Qred_correct.
  destruct (Qred x) as [n d]. simpl. destruct n as [|n|n].
  - apply Qle_refl.
  - unfold Qle in Hr; simpl in Hr. lia.
  - pose proof (round64_pos_nonneg (Z.pos n) (Z.pos d) eq_refl eq_refl). lra.
Qed.

Lemma round64_opp (x : Q) : (round64 (- x) == - round64 x)%Q.
Proof.
  unfold round64. cbv zeta. rewrite Qred_opp.
  destruct (Qred x) as [n d]. simpl. destruct n as [|n|n]; simpl.
  - reflexivity.
  - reflexivity.
  - now rewrite Qopp_involutive.
Qed.

(** A rounded value is positive only if the exact one is, and negative only
    if the exact one is. *)
Lemma round64_pos_inv (x : Q) : (0 < round64 x)%Q → (0 < x)%Q.
Proof.
  intros H. destruct (Qlt_le_dec 0 x) as [Hx | Hx]; [exact Hx|].
  apply round64_nonpos in Hx. lra.
Qed.

Lemma round64_neg_inv (x : Q) : (round64 x < 0)%Q → (x < 0)%Q.
Proof.
  intros H. destruct (Qlt_le_dec x 0) as [Hx | Hx]; [exact Hx|].
  apply round64_nonneg in Hx. lra.
Qed.

Lemma Qdiv_pos_inv (x y : Q) : (0 < y)%Q → (0 < x / y)%Q → (0 < x)%Q.
Proof.
  intros Hy H. destruct (Qlt_le_dec 0 x) as [Hx | Hx]; [exact Hx|]. exfalso.
  assert (x / y <= 0)%Q; [|lra].
  apply Qle_shift_div_r; [exact Hy | lra].
Qed.

Lemma Qdiv_neg_inv (x y : Q) : (0 < y)%Q → (x / y < 0)%Q → (x < 0)%Q.
Proof.
  intros Hy H. destruct (Qlt_le_dec x 0) as [Hx | Hx]; [exact Hx|]. exfalso.
  assert (0 <= x / y)%Q; [|lra].
  apply Qle_shift_div_l; [exact Hy | lra].
Qed.

(** The sign of [((a - b) / c) * 100] on floats, over a positive [c]. *)
Lemma percent_positive (a b c : Q) :
  (0 < c)%Q → (0 < fmul (fdiv (fsub a b) c) 100)%Q → (b < a)%Q.
Proof.
  intros Hc H. unfold fmul, fdiv, fsub in H.
  apply round64_pos_inv in H.
  assert (H1 : (0 < round64 (round64 (a - b) / c))%Q) by lra.
  apply round64_pos_inv, (Qdiv_pos_inv _ _ Hc), round64_pos_inv in H1. lra.
Qed.

Lemma percent_negative (a b c : Q) :
  (0 < c)%Q → (fmul (fdiv (fsub a b) c) 100 < 0)%Q → (a < b)%Q.
Proof.
  intros Hc H. unfold fmul, fdiv, fsub in H.
  apply round64_neg_inv in H.
  assert (H1 : (round64 (round64 (a - b) / c) < 0)%Q) by lra.
  apply round64_neg_inv, (Qdiv_neg_inv _ _ Hc), round64_neg_inv in H1. lra.
Qed.

Lemma percent_of_equal (a b : Q) :
  (a == b)%Q → ¬ (b == 0)%Q → (fmul (fdiv (fsub a b) b) 100 == 0)%Q.
Proof.
  intros Hab Hb. unfold fmul, fdiv, fsub.
  rewrite (round64_proper (a - b) 0) by lra.
  change (round64 0) with 0%Q.
  rewrite (round64_proper (0 / b) 0) by (now field).
  reflexivity.
Qed.

(** From a float [b] down to 0 is a change of exactly -100. *)
Lemma percent_of_zero (b : Q) :
  (round64 b == b)%Q → (0 < b)%Q → (fmul (fdiv (fsub 0 b) b) 100 == -100)%Q.
Proof.
  intros Hr Hb. unfold fmul, fdiv, fsub.
  assert (E1 : (round64 (0 - b) == - b)%Q).
  { rewrite (round64_proper (0 - b) (- b)) by lra.
    now rewrite round64_opp, Hr. }
  assert (E2 : (round64 (0 - b) / b == - (1))%Q).
  { rewrite E1. field. lra. }
  rewrite (round64_proper _ (- (1)) E2).
  rewrite (round64_proper (round64 (- (1)) * 100) (- (100)));
    vm_compute; reflexivity.
Qed.

(** ** Identity keys *)

Lemma replace_spaces_length s : String.length (replace_spaces s) = String.length s.
Proof. induction s as [|a s IH]; simpl; [reflexivity | now rewrite IH]. Qed.

(** No space is left, and every other character stays where it was. *)
Lemma replace_spaces_get s i :
  String.get i (replace_spaces s) =
  (λ a, if Ascii.eqb a " "%char then "_"%char else a) <$> String.get i s.
Proof.
  revert i; induction s as [|a s IH]; intros [|i]; simpl; auto.
Qed.

(** C5, as stated, fails: for a card with the serial number 001 the key puts
    the number between the set and the rarity, not after the rarity. *)
Lemma get_identifier_number_not_after_rarity :
  get_identifier luffy = "Monkey_D_Luffy_OP01_001_SR_English"%string
  ∧ identifier_number_after_rarity luffy = "Monkey_D_Luffy_OP01_SR_001_English"%string
  ∧ get_identifier luffy ≠ identifier_number_after_rarity luffy.
Proof. repeat split; try reflexivity. discriminate. Qed.

(** C5, amended: the key is the join with underscores of the name, the set,
    the rarity and the language, each with its spaces replaced by
    underscores; a serial number that is present and not empty stands between
    the set and the rarity. *)
Theorem get_identifier_parts (c : Card) :
  (∀ n, number c = Some n → n ≠ ""%string →
     get_identifier c =
       (replace_spaces (name c) ++ "_" ++ replace_spaces (card_set c) ++ "_"
        ++ replace_spaces n ++ "_" ++ replace_spaces (rarity c) ++ "_"
        ++ replace_spaces (language c))%string)
  ∧ (number c = None ∨ number c = Some ""%string →
     get_identifier c =
       (replace_spaces (name c) ++ "_" ++ replace_spaces (card_set c) ++ "_"
        ++ replace_spaces (rarity c) ++ "_"
        ++ replace_spaces (language c))%string).
Proof.
  unfold get_identifier; split.
  - intros n -> Hn. destruct n as [|a n]; [done|]. reflexivity.
  - intros [-> | ->]; reflexivity.
Qed.

Lemma get_identifier_parts_witness :
  get_identifier luffy =
    (replace_spaces "Monkey D Luffy" ++ "_" ++ replace_spaces "OP01" ++ "_"
     ++ replace_spaces "001" ++ "_" ++ replace_spaces "SR" ++ "_"
     ++ replace_spaces "English")%string.
Proof.
  apply (proj1 (get_identifier_parts luffy) "001"%string); [reflexivity | discriminate].
Defined.

(** ** Effective price *)

(** C6, as stated, fails: with a market price of 0 and a lowest listing of 5
    the effective price is 5. *)
Lemma effective_price_zero_market :
  get_effective_price free_market_listing = Some (5 # 1)%Q
  ∧ ¬ effective_price_as_claimed free_market_listing.
Proof.
  split; [reflexivity|].
  intros [H _]. specialize (H 0%Q eq_refl). discriminate H.
Qed.

Lemma truthy_price_Some q : truthy_price (Some q) = true ↔ ¬ (q == 0)%Q.
Proof.
  simpl. rewrite negb_true_iff, <- not_true_iff_false, Qeq_bool_iff. tauto.
Qed.

Lemma truthy_price_Some_false q : truthy_price (Some q) = false ↔ (q == 0)%Q.
Proof. simpl. rewrite negb_false_iff, Qeq_bool_iff. tauto. Qed.

(** C6, amended: the effective price is the market price when that is present
    and not zero; otherwise (absent, or zero) it is the lowest-listing price,
    which is undefined when absent. *)
Theorem get_effective_price_cases (pd : PriceData) :
  (∀ m, market_price pd = Some m → ¬ (m == 0)%Q → get_effective_price pd = Some m)
  ∧ (∀ m, market_price pd = Some m → (m == 0)%Q →
       get_effective_price pd = lowest_price pd)
  ∧ (market_price pd = None → get_effective_price pd = lowest_price pd).
Proof.
  unfold get_effective_price. repeat split.
  - intros m -> Hm. apply truthy_price_Some in Hm. now rewrite Hm.
  - intros m -> Hm. apply truthy_price_Some_false in Hm. now rewrite Hm.
  - now intros ->.
Qed.

Lemma get_effective_price_cases_witness :
  get_effective_price free_market_listing = lowest_price free_market_listing.
Proof.
  apply (proj1 (proj2 (get_effective_price_cases free_market_listing)) 0%Q);
    reflexivity.
Defined.

(** ** The history store *)

(** *** Sorting newest first *)

Lemma insert_newest_first_perm x l : Permutation (insert_newest_first x l) (x :: l).
Proof.
  induction l as [|y l IH]; simpl; [reflexivity|].
  destruct (timestamp x <? timestamp y); [|reflexivity].
  rewrite IH. apply perm_swap.
Qed.

Lemma sort_newest_first_perm l : Permutation (sort_newest_first l) l.
Proof.
  induction l as [|x l IH]; simpl; [reflexivity|].
  rewrite insert_newest_first_perm. now constructor.
Qed.

Lemma insert_newest_first_sorted x l :
  newest_first l → newest_first (insert_newest_first x l).
Proof.
  unfold newest_first. induction 1 as [|y l Hl IH Hy]; simpl.
  - repeat constructor.
  - destruct (timestamp x <? timestamp y) eqn:E.
    + apply Z.ltb_lt in E. constructor; [exact IH|].
      rewrite insert_newest_first_perm. constructor; [lia | exact Hy].
    + apply Z.ltb_ge in E. constructor; [now constructor|].
      constructor; [exact E|].
      eapply Forall_impl; [exact Hy|]. simpl; intros; lia.
Qed.

Lemma sort_newest_first_sorted l : newest_first (sort_newest_first l).
Proof.
  induction l as [|x l IH]; simpl;
    [constructor | now apply insert_newest_first_sorted].
Qed.

(** *** Reading the log *)

Lemma parse_item_timestamp it p :
  parse_item it = Some p → entry_timestamp it = Some (timestamp p).
Proof.
  destruct it as [e|]; simpl; [|discriminate].
  destruct (e_card_id e) as [cid|]; simpl; [|discriminate].
  destruct (e_timestamp e) as [iso|]; simpl; [|discriminate].
  destruct (fromisoformat iso); simpl; [|discriminate].
  now intros [= <-].
Qed.

Lemma parse_new_entry pd : parse_item (new_entry pd) = Some pd.
Proof. now destruct pd. Qed.

Lemma mapM_parse_snoc data h pd :
  mapM parse_item data = Some h →
  mapM parse_item (data ++ [new_entry pd]) = Some (h ++ [pd]).
Proof.
  rewrite !mapM_Some. intros H. apply Forall2_app; [exact H|].
  repeat constructor. apply parse_new_entry.
Qed.

(** Trimming commutes with parsing: on a log of well-formed records the
    comprehension of [save_price_data] keeps the records newer than the
    cutoff, in their order. *)
Lemma keep_recent_parsed cutoff data h :
  mapM parse_item data = Some h →
  ∃ data', keep_recent cutoff data = Some data'
           ∧ mapM parse_item data' = Some (filter (λ p, cutoff < timestamp p) h).
Proof.
  rewrite mapM_Some. induction 1 as [|it p data h Hp _ (data' & Hk & Hm)]; simpl.
  - now exists [].
  - rewrite (parse_item_timestamp _ _ Hp), Hk. simpl.
    destruct (cutoff <? timestamp p) eqn:E.
    + apply Z.ltb_lt in E. exists (it :: data'); split; [reflexivity|].
      rewrite filter_cons_True by exact E.
      apply mapM_Some. constructor; [exact Hp | now apply mapM_Some].
    + apply Z.ltb_ge in E. exists data'; split; [reflexivity|].
      rewrite filter_cons_False by lia. exact Hm.
Qed.

Lemma load_history_files tr c : files (snd (load_history tr c)) = files tr.
Proof.
  unfold load_history.
  destruct (files tr !! _) as [content|]; [|reflexivity].
  destruct (_ ≫= _); reflexivity.
Qed.

(** What [load_history] returns, in terms of the log. *)
Lemma load_history_persisted tr c :
  load_history tr c =
    match files tr !! get_history_file (get_identifier c),
          persisted_records tr (get_identifier c) with
    | Some _, Some h =>
        (sort_newest_first h,
         set_history tr (get_identifier c) (sort_newest_first h))
    | _, _ => ([], tr)
    end.
Proof.
  unfold load_history, persisted_records.
  destruct (files tr !! _) as [content|]; [|reflexivity].
  destruct (_ ≫= _); reflexivity.
Qed.

(** *** Malformed records *)

(** C3, as stated, fails: a log of two well-formed records and one record
    without a timestamp loads as the empty sequence. *)
Lemma load_history_one_malformed_record :
  fst (load_history tracker_with_one_malformed luffy) = []
  ∧ omap parse_item log_with_one_malformed =
      [obs 10 (Some (45 # 1)%Q) None; obs 20 (Some (46 # 1)%Q) None]
  ∧ ¬ load_drops_only_malformed tracker_with_one_malformed luffy.
Proof.
  assert (Hl : fst (load_history tracker_with_one_malformed luffy) = [])
    by (vm_compute; reflexivity).
  assert (Ho : omap parse_item log_with_one_malformed =
               [obs 10 (Some (45 # 1)%Q) None; obs 20 (Some (46 # 1)%Q) None])
    by reflexivity.
  split; [exact Hl | split; [exact Ho |]].
  intros H. specialize (H log_with_one_malformed).
  rewrite Hl, Ho in H.
  eapply Permutation_nil_cons, H. vm_compute; reflexivity.
Qed.

(** C3, amended: [load] returns the observations of the log, all of them and
    newest first, and caches them, when every record of the log is well
    formed; when a record is malformed it returns the empty sequence and
    changes nothing, whatever the other records are. *)
Theorem load_history_all_or_nothing (tr : PriceTracker) (c : Card)
    (data : list json_item) :
  files tr !! get_history_file (get_identifier c) = Some (Records data) →
  (Exists (λ it, parse_item it = None) data → load_history tr c = ([], tr))
  ∧ (∀ h, mapM parse_item data = Some h →
       fst (load_history tr c) = sort_newest_first h
       ∧ Permutation (fst (load_history tr c)) h
       ∧ newest_first (fst (load_history tr c))
       ∧ price_history (snd (load_history tr c)) !! get_identifier c
         = Some (sort_newest_first h)).
Proof.
  intros Hf. rewrite load_history_persisted. unfold persisted_records.
  rewrite Hf. simpl. split.
  - intros Hex. apply mapM_None_2 in Hex. now rewrite Hex.
  - intros h ->. simpl. split_and!.
    + reflexivity.
    + apply sort_newest_first_perm.
    + apply sort_newest_first_sorted.
    + apply lookup_insert_eq.
Qed.

Lemma load_history_all_or_nothing_witness :
  load_history tracker_with_one_malformed luffy = ([], tracker_with_one_malformed).
Proof.
  apply (proj1 (load_history_all_or_nothing tracker_with_one_malformed luffy
                  log_with_one_malformed ltac:(vm_compute; reflexivity))).
  apply Exists_cons_tl, Exists_cons_hd. reflexivity.
Defined.

(** *** Saving *)

(** What a save that gets as far as writing does to the state. *)
Lemma save_price_data_ok tr pd now olds :
  persisted_records tr (card_id pd) = Some olds →
  ∃ data,
    mapM parse_item data
      = Some (filter (λ p, now - timedelta_days 90 < timestamp p) (olds ++ [pd]))
    ∧ save_price_data tr pd now WriteOk =
        {| files := <[get_history_file (card_id pd) := Records data]> (files tr);
           price_history :=
             <[card_id pd := pd :: default [] (price_history tr !! card_id pd)]>
               (price_history tr) |}
    ∧ ∀ residue,
        save_price_data tr pd now (WriteFails residue) =
          {| files := partial_alter (λ _, residue)
                        (get_history_file (card_id pd)) (files tr);
             price_history := price_history tr |}.
Proof.
  unfold persisted_records, save_price_data. intros Hp.
  assert (∃ old_data,
            match files tr !! get_history_file (card_id pd) with
            | Some content => json_load content
            | None => Some []
            end = Some old_data ∧ mapM parse_item old_data = Some olds)
    as (old_data & -> & Hm).
  { destruct (files tr !! _) as [content|].
    - destruct (json_load content) as [d|]; [|discriminate]. now exists d.
    - exists []. split; [reflexivity|]. now injection Hp as <-. }
  simpl.
  destruct (keep_recent_parsed (now - timedelta_days 90) _ _
              (mapM_parse_snoc _ _ pd Hm)) as (data & -> & Hd).
  exists data. split_and!; [exact Hd | reflexivity | reflexivity].
Qed.

(** C9: when the log of [pd]'s card holds well-formed records [olds] (or
    there is no log yet) and the write succeeds, a save at time [now]
    followed by a load returns exactly the records, old and new, whose
    timestamp is strictly after [now] minus 90 days, newest first; the log
    holds these and no others; and the cache after the save is the new
    observation in front of the untrimmed cache. *)
Theorem save_then_load_retention (tr : PriceTracker) (pd : PriceData) (now : Z)
    (c : Card) (olds : list PriceData) :
  get_identifier c = card_id pd →
  persisted_records tr (card_id pd) = Some olds →
  let tr' := save_price_data tr pd now WriteOk in
  let kept := filter (λ p, now - timedelta_days 90 < timestamp p) (olds ++ [pd]) in
  fst (load_history tr' c) = sort_newest_first kept
  ∧ Permutation (fst (load_history tr' c)) kept
  ∧ (∀ p, p ∈ fst (load_history tr' c)
          ↔ p ∈ olds ++ [pd] ∧ now - timedelta_days 90 < timestamp p)
  ∧ persisted_records tr' (card_id pd) = Some kept
  ∧ price_history tr' !! card_id pd
    = Some (pd :: default [] (price_history tr !! card_id pd)).
Proof.
  intros Hid Hp tr' kept.
  destruct (save_price_data_ok tr pd now olds Hp) as (data & Hd & Hs & _).
  fold kept in Hd.
  assert (Hp' : persisted_records tr' (card_id pd) = Some kept).
  { unfold persisted_records, tr'. rewrite Hs. simpl.
    rewrite lookup_insert_eq. exact Hd. }
  assert (Hl : fst (load_history tr' c) = sort_newest_first kept).
  { rewrite load_history_persisted, Hid, Hp'.
    unfold tr'. rewrite Hs. simpl. now rewrite lookup_insert_eq. }
  split_and!.
  - exact Hl.
  - rewrite Hl. apply sort_newest_first_perm.
  - intros p. rewrite Hl, sort_newest_first_perm. unfold kept.
    rewrite list_elem_of_filter. tauto.
  - exact Hp'.
  - unfold tr'. rewrite Hs. simpl. apply lookup_insert_eq.
Qed.

Lemma save_then_load_retention_witness :
  fst (load_history
         (save_price_data aged_log_tracker (obs (200 * 24) (Some (47 # 1)%Q) None)
            (200 * day) WriteOk) luffy)
  = [obs (200 * 24) (Some (47 # 1)%Q) None; obs (198 * 24) (Some (48 # 1)%Q) None].
Proof.
  apply (proj1 (save_then_load_retention aged_log_tracker
                  (obs (200 * 24) (Some (47 # 1)%Q) None) (200 * day) luffy
                  [obs (100 * 24) (Some (52 # 1)%Q) None;
                   obs (198 * 24) (Some (48 # 1)%Q) None]
                  ltac:(vm_compute; reflexivity) ltac:(vm_compute; reflexivity))).
Defined.

(** C4, as stated, fails: on an empty store, a save whose write fails (and
    leaves no file) caches nothing, and the latest observation stays
    undefined. *)
Lemma save_failed_write_not_cached :
  let pd := obs 100 (Some (45 # 1)%Q) None in
  let tr' := save_price_data empty_tracker pd (100 * hour) (WriteFails None) in
  card_id pd = get_identifier luffy
  ∧ price_history tr' !! card_id pd = None
  ∧ fst (get_latest_price tr' luffy) = None
  ∧ ¬ failed_write_still_cached empty_tracker pd (100 * hour) luffy.
Proof.
  split_and!; try (vm_compute; reflexivity).
  intros H. specialize (H None). vm_compute in H. discriminate H.
Qed.

Lemma save_price_data_cache_cases tr pd now w :
  price_history (save_price_data tr pd now w) = price_history tr
  ∨ (w = WriteOk
     ∧ price_history (save_price_data tr pd now w)
       = <[card_id pd := pd :: default [] (price_history tr !! card_id pd)]>
           (price_history tr)).
Proof.
  unfold save_price_data. destruct (_ ≫= _) as [data|]; [|now left].
  destruct w; [right | left]; auto.
Qed.

(** C4, amended: when writing the log fails the save does not raise and
    leaves the in-memory cache exactly as it was, the new observation is not
    added; so a card whose cache is not empty keeps its cached head as the
    latest observation after the failed save. *)
Theorem save_failed_write_cache_unchanged (tr : PriceTracker) (pd : PriceData)
    (now : Z) (residue : option file_content) :
  let tr' := save_price_data tr pd now (WriteFails residue) in
  price_history tr' = price_history tr
  ∧ ∀ c x l,
      price_history tr !! get_identifier c = Some (x :: l) →
      get_latest_price tr' c = (Some x, tr').
Proof.
  intros tr'.
  assert (Hc : price_history tr' = price_history tr).
  { destruct (save_price_data_cache_cases tr pd now (WriteFails residue))
      as [H | [H _]]; [exact H | discriminate H]. }
  split; [exact Hc|].
  intros c x l Hx. unfold get_latest_price. now rewrite Hc, Hx.
Qed.

Lemma save_failed_write_cache_unchanged_witness :
  fst (get_latest_price
         (save_price_data cached_tracker (obs 100 (Some (45 # 1)%Q) None)
            (100 * hour) (WriteFails (Some Corrupt))) luffy)
  = Some (obs 99 (Some (40 # 1)%Q) None).
Proof.
  rewrite (proj2 (save_failed_write_cache_unchanged cached_tracker
                    (obs 100 (Some (45 # 1)%Q) None) (100 * hour) (Some Corrupt))
             luffy (obs 99 (Some (40 # 1)%Q) None) []
             ltac:(vm_compute; reflexivity)).
  reflexivity.
Defined.

(** A save that completes puts the observation at the head of the cache. *)
Lemma save_price_data_ok_latest tr pd now c olds :
  get_identifier c = card_id pd →
  persisted_records tr (card_id pd) = Some olds →
  fst (get_latest_price (save_price_data tr pd now WriteOk) c) = Some pd.
Proof.
  intros Hid Hp.
  destruct (save_price_data_ok tr pd now olds Hp) as (data & _ & -> & _).
  unfold get_latest_price. simpl. now rewrite Hid, lookup_insert_eq.
Qed.

(** *** Temporal queries *)

(** [min] with an integer key returns a least element, and of the least
    elements the first one of the list. *)
Lemma foldl_min_by_key {A} (key : A → Z) (l : list A) (b : A) :
  ∃ i,
    (b :: l) !! i
      = Some (foldl (λ best y, if key y <? key best then y else best) b l)
    ∧ (∀ y, y ∈ b :: l →
         key (foldl (λ best y, if key y <? key best then y else best) b l) ≤ key y)
    ∧ (∀ j y, (j < i)%nat → (b :: l) !! j = Some y →
         key (foldl (λ best y, if key y <? key best then y else best) b l) < key y).
Proof.
  revert b; induction l as [|y l IH]; intros b; simpl.
  - exists 0%nat. split_and!; [reflexivity | |].
    + intros y ->%list_elem_of_singleton. lia.
    + intros j y Hj. lia.
  - destruct (key y <? key b) eqn:E.
    + apply Z.ltb_lt in E.
      destruct (IH y) as (i & Hi & Hmin & Hfirst).
      pose proof (Hmin y ltac:(left)) as Hy.
      exists (S i). split_and!; [exact Hi | |].
      * intros z [-> | Hz]%elem_of_cons; [lia | now apply Hmin].
      * intros [|j] z Hj Hz; simpl in Hz.
        -- injection Hz as <-. lia.
        -- apply (Hfirst j z); [lia | exact Hz].
    + apply Z.ltb_ge in E.
      destruct (IH b) as (i & Hi & Hmin & Hfirst).
      destruct i as [|i]; simpl in Hi.
      * injection Hi as Hi. rewrite <- Hi in *.
        exists 0%nat. split_and!; [reflexivity | |].
        -- intros z [-> | [-> | Hz]%elem_of_cons]%elem_of_cons;
             [lia | lia | apply Hmin; now right].
        -- intros j z Hj. lia.
      * pose proof (Hfirst 0%nat b ltac:(lia) eq_refl) as Hb.
        exists (S (S i)). split_and!; [exact Hi | |].
        -- intros z [-> | [-> | Hz]%elem_of_cons]%elem_of_cons;
             [lia | lia | apply Hmin; now right].
        -- intros [|[|j]] z Hj Hz; simpl in Hz.
           ++ injection Hz as <-. lia.
           ++ injection Hz as <-. lia.
           ++ apply (Hfirst (S j) z); [lia | exact Hz].
Qed.

Lemma py_min_by_key {A} (key : A → Z) (l : list A) :
  l ≠ [] →
  ∃ x i,
    py_min (λ a b, key a <? key b) l = Some x
    ∧ l !! i = Some x
    ∧ (∀ y, y ∈ l → key x ≤ key y)
    ∧ (∀ j y, (j < i)%nat → l !! j = Some y → key x < key y).
Proof.
  destruct l as [|b l]; [done|]. intros _.
  destruct (foldl_min_by_key key l b) as (i & Hi & Hmin & Hfirst).
  eexists _, i. split_and!; [reflexivity | exact Hi | exact Hmin | exact Hfirst].
Qed.

(** The loads of the temporal queries.  A card whose key is cached is never
    reloaded by them; hydrating is idempotent and leaves the files alone. *)
Lemma ensure_loaded_cases tr c :
  ensure_loaded tr c = tr
  ∨ (price_history tr !! get_identifier c = None
     ∧ ∃ h, files tr !! get_history_file (get_identifier c) = Some (Records h)
            ∧ ∃ hist, mapM parse_item h = Some hist
            ∧ ensure_loaded tr c
              = set_history tr (get_identifier c) (sort_newest_first hist)).
Proof.
  unfold ensure_loaded, load_history.
  destruct (price_history tr !! _) as [cached|] eqn:Hc; [now left|].
  destruct (files tr !! _) as [[data|]|]; simpl; [|now left..].
  destruct (mapM parse_item data) as [hist|] eqn:Hm; simpl; [|now left].
  right. split; [reflexivity|]. exists data. split; [reflexivity|].
  now exists hist.
Qed.

Lemma ensure_loaded_idem tr c :
  ensure_loaded (ensure_loaded tr c) c = ensure_loaded tr c.
Proof.
  destruct (ensure_loaded_cases tr c) as [H | (_ & h & _ & hist & _ & ->)];
    [now rewrite !H|].
  unfold ensure_loaded at 1. simpl. now rewrite lookup_insert_eq.
Qed.

Lemma ensure_loaded_files tr c : files (ensure_loaded tr c) = files tr.
Proof.
  unfold ensure_loaded. destruct (price_history tr !! _); [reflexivity|].
  apply load_history_files.
Qed.

Lemma get_price_at_timeframe_tracker tr c hours now :
  snd (get_price_at_timeframe tr c hours now) = ensure_loaded tr c.
Proof.
  unfold get_price_at_timeframe.
  now destruct (price_history (ensure_loaded tr c) !! _) as [[|x l]|].
Qed.

Lemma get_30_day_low_tracker tr c now :
  snd (get_30_day_low tr c now) = ensure_loaded tr c.
Proof.
  unfold get_30_day_low.
  now destruct (price_history (ensure_loaded tr c) !! _) as [[|x l]|].
Qed.

Lemma get_price_at_timeframe_loaded tr c hours now :
  get_price_at_timeframe (ensure_loaded tr c) c hours now
  = get_price_at_timeframe tr c hours now.
Proof. unfold get_price_at_timeframe. now rewrite ensure_loaded_idem. Qed.

Lemma get_30_day_low_loaded tr c now :
  get_30_day_low (ensure_loaded tr c) c now = get_30_day_low tr c now.
Proof. unfold get_30_day_low. now rewrite ensure_loaded_idem. Qed.

(** Hydrating does not change what the latest observation is. *)
Lemma get_latest_price_loaded tr c :
  fst (get_latest_price (ensure_loaded tr c) c) = fst (get_latest_price tr c).
Proof.
  destruct (ensure_loaded_cases tr c)
    as [H | (Hc & data & Hf & hist & Hm & ->)]; [now rewrite H|].
  unfold get_latest_price at 2. rewrite Hc.
  unfold get_latest_price, load_history. simpl.
  rewrite lookup_insert_eq, Hf. simpl. rewrite Hm. simpl.
  now destruct (sort_newest_first hist).
Qed.

(** C7: when the history of a card (cached, or loaded by the query itself) is
    not empty, [get_price_at_timeframe] returns an observation of it whose
    distance in time to the target [now - hours_ago] is least, and every
    observation that precedes it in the cache is strictly farther from the
    target: of the nearest observations it is the first in cache order.  With
    samples 1, 5 and 10 hours before [now] and a target of 6 hours ago it
    returns the sample 5 hours before [now]. *)
Theorem get_price_at_timeframe_nearest :
  (∀ (tr : PriceTracker) (c : Card) (hours_ago now : Z) (history : list PriceData),
     price_history (ensure_loaded tr c) !! get_identifier c = Some history →
     history ≠ [] →
     ∃ x i,
       fst (get_price_at_timeframe tr c hours_ago now) = Some x
       ∧ history !! i = Some x
       ∧ (∀ y, y ∈ history →
            time_distance (now - timedelta_hours hours_ago) x
            ≤ time_distance (now - timedelta_hours hours_ago) y)
       ∧ (∀ j y, (j < i)%nat → history !! j = Some y →
            time_distance (now - timedelta_hours hours_ago) x
            < time_distance (now - timedelta_hours hours_ago) y))
  ∧ (∀ (tr : PriceTracker) (c : Card) (now : Z) (s1 s5 s10 : PriceData)
       (history : list PriceData),
     price_history (ensure_loaded tr c) !! get_identifier c = Some history →
     Permutation history [s1; s5; s10] →
     timestamp s1 = now - timedelta_hours 1 →
     timestamp s5 = now - timedelta_hours 5 →
     timestamp s10 = now - timedelta_hours 10 →
     fst (get_price_at_timeframe tr c 6 now) = Some s5).
Proof.
  assert (Hgen : ∀ tr c hours_ago now history,
     price_history (ensure_loaded tr c) !! get_identifier c = Some history →
     history ≠ [] →
     ∃ x i,
       fst (get_price_at_timeframe tr c hours_ago now) = Some x
       ∧ history !! i = Some x
       ∧ (∀ y, y ∈ history →
            time_distance (now - timedelta_hours hours_ago) x
            ≤ time_distance (now - timedelta_hours hours_ago) y)
       ∧ (∀ j y, (j < i)%nat → history !! j = Some y →
            time_distance (now - timedelta_hours hours_ago) x
            < time_distance (now - timedelta_hours hours_ago) y)).
  { intros tr c hours_ago now history Hh Hne.
    destruct (py_min_by_key (time_distance (now - timedelta_hours hours_ago))
                history Hne) as (x & i & Hx & Hi & Hmin & Hfirst).
    exists x, i. split_and!; [| exact Hi | exact Hmin | exact Hfirst].
    unfold get_price_at_timeframe. rewrite Hh.
    destruct history as [|h0 history]; [done|]. exact Hx. }
  split; [exact Hgen|].
  intros tr c now s1 s5 s10 history Hh Hperm H1 H5 H10.
  destruct (Hgen tr c 6 now history Hh) as (x & i & -> & Hi & Hmin & _).
  { intros ->. now apply Permutation_nil in Hperm. }
  f_equal.
  assert (H5in : s5 ∈ history) by (rewrite Hperm; set_solver).
  apply Hmin in H5in.
  apply list_elem_of_lookup_2 in Hi. rewrite Hperm in Hi.
  unfold time_distance, timedelta_hours in *.
  repeat (apply elem_of_cons in Hi as [-> | Hi]); [lia | reflexivity | lia |].
  now apply elem_of_nil in Hi.
Qed.

Lemma get_price_at_timeframe_nearest_witness :
  fst (get_price_at_timeframe
         {| files := ∅;
            price_history :=
              {[ get_identifier luffy :=
                   [obs 99 (Some (40 # 1)%Q) None; obs 95 (Some (41 # 1)%Q) None;
                    obs 90 (Some (42 # 1)%Q) None] ]} |}
         luffy 6 (100 * hour))
  = Some (obs 95 (Some (41 # 1)%Q) None).
Proof.
  apply (proj2 get_price_at_timeframe_nearest _ luffy (100 * hour)
           (obs 99 (Some (40 # 1)%Q) None) (obs 95 (Some (41 # 1)%Q) None)
           (obs 90 (Some (42 # 1)%Q) None)
           [obs 99 (Some (40 # 1)%Q) None; obs 95 (Some (41 # 1)%Q) None;
            obs 90 (Some (42 # 1)%Q) None]);
    [vm_compute; reflexivity | reflexivity | reflexivity..].
Defined.

(** Two samples at the same distance from the target: the one that comes
    first in the cache is returned. *)
Example get_price_at_timeframe_tie :
  fst (get_price_at_timeframe
         {| files := ∅;
            price_history :=
              {[ get_identifier luffy :=
                   [obs 95 (Some (41 # 1)%Q) None; obs 93 (Some (42 # 1)%Q) None] ]} |}
         luffy 6 (100 * hour))
  = Some (obs 95 (Some (41 # 1)%Q) None).
Proof. vm_compute; reflexivity. Qed.

Lemma Qlt_bool_iff x y : Qlt_bool x y = true ↔ (x < y)%Q.
Proof.
  unfold Qlt_bool. rewrite negb_true_iff, <- not_true_iff_false, Qle_bool_iff.
  split; [apply Qnot_le_lt | apply Qlt_not_le].
Qed.

(** [min] of a list of prices is a price of the list, below all of them. *)
Lemma foldl_min_price (l : list Q) (b : Q) :
  foldl (λ best y, if Qlt_bool y best then y else best) b l ∈ b :: l
  ∧ ∀ y, y ∈ b :: l →
      (foldl (λ best y, if Qlt_bool y best then y else best) b l <= y)%Q.
Proof.
  revert b; induction l as [|y l IH]; intros b; simpl.
  - split; [left|]. intros y ->%list_elem_of_singleton. apply Qle_refl.
  - destruct (Qlt_bool y b) eqn:E.
    + apply Qlt_bool_iff in E. destruct (IH y) as [Hin Hmin].
      split; [now right|].
      intros z [-> | Hz]%elem_of_cons; [|now apply Hmin].
      apply Qle_trans with y; [apply Hmin; left | now apply Qlt_le_weak].
    + assert (b <= y)%Q as Hby.
      { apply Qnot_lt_le. intros H. apply Qlt_bool_iff in H. congruence. }
      destruct (IH b) as [Hin Hmin]. split.
      * apply elem_of_cons in Hin as [-> | Hin]; [left | right; now right].
      * intros z [-> | [-> | Hz]%elem_of_cons]%elem_of_cons.
        -- apply Hmin; left.
        -- apply Qle_trans with b; [apply Hmin; left | exact Hby].
        -- apply Hmin; now right.
Qed.

Lemma py_min_price l m :
  py_min Qlt_bool l = Some m → m ∈ l ∧ ∀ y, y ∈ l → (m <= y)%Q.
Proof.
  destruct l as [|b l]; [discriminate|]. intros [= <-]. apply foldl_min_price.
Qed.

Lemma elem_of_recent_prices cutoff history q :
  q ∈ recent_prices cutoff history
  ↔ ∃ pd, pd ∈ history ∧ cutoff < timestamp pd ∧ get_effective_price pd = Some q.
Proof.
  unfold recent_prices. rewrite list_elem_of_omap.
  split; intros (pd & Hin & H); exists pd; (split; [exact Hin|]).
  - destruct (cutoff <? timestamp pd) eqn:E; [|discriminate].
    apply Z.ltb_lt in E. now split.
  - destruct H as [Hlt ->]. apply Z.ltb_lt in Hlt. now rewrite Hlt.
Qed.

(** ** The alert evaluator *)

(** The reasons and the tracker that [collect_reasons] returns, with the
    look-ups taken on the tracker of the caller. *)
Lemma collect_reasons_unfold sys c cp current clk :
  collect_reasons sys c cp current clk =
    ((check_target c current
      ++ check_drop (thresholds sys)
           (fst (get_price_at_timeframe (price_tracker sys) c
                   (drop_timeframe_hours (thresholds sys)) (t_drop clk))) current
      ++ check_thirty_day_low
           (fst (get_30_day_low (price_tracker sys) c (t_low clk))) current
      ++ check_inventory (thresholds sys) cp)%list,
     with_tracker sys (ensure_loaded (price_tracker sys) c)).
Proof.
  unfold collect_reasons.
  pose proof (get_price_at_timeframe_tracker (price_tracker sys) c
                (drop_timeframe_hours (thresholds sys)) (t_drop clk)) as Ht.
  destruct (get_price_at_timeframe _ _ _ _) as [past tr]. simpl in Ht. subst tr.
  pose proof (get_30_day_low_tracker (ensure_loaded (price_tracker sys) c) c
                (t_low clk)) as Ht.
  rewrite ensure_loaded_idem in Ht.
  rewrite <- (get_30_day_low_loaded (price_tracker sys)).
  destruct (get_30_day_low _ _ _) as [low tr]. simpl in Ht. now subst tr.
Qed.

Lemma check_target_not_low c current :
  Forall (λ r, is_thirty_day_low r = false) (check_target c current).
Proof.
  unfold check_target. destruct (target_price c); [|constructor].
  destruct (_ && _); repeat constructor.
Qed.

Lemma check_drop_not_low th past current :
  Forall (λ r, is_thirty_day_low r = false) (check_drop th past current).
Proof.
  unfold check_drop. destruct past as [p|]; [|constructor].
  destruct (get_effective_price p); [|constructor].
  destruct (truthy_price _); [|constructor].
  destruct (Qle_bool _ _); repeat constructor.
Qed.

Lemma check_inventory_not_low th cp :
  Forall (λ r, is_thirty_day_low r = false) (check_inventory th cp).
Proof. unfold check_inventory. destruct (_ && _); repeat constructor. Qed.

(** A 30-day-low reason among the collected reasons comes from check 3. *)
Lemma thirty_day_low_in_reasons sys c cp current clk a b :
  ThirtyDayLow a b ∈ fst (collect_reasons sys c cp current clk)
  ↔ ThirtyDayLow a b
      ∈ check_thirty_day_low
          (fst (get_30_day_low (price_tracker sys) c (t_low clk))) current.
Proof.
  rewrite collect_reasons_unfold. simpl. rewrite !elem_of_app.
  pose proof (check_target_not_low c current) as H1.
  pose proof (check_drop_not_low (thresholds sys)
                (fst (get_price_at_timeframe (price_tracker sys) c
                        (drop_timeframe_hours (thresholds sys)) (t_drop clk)))
                current) as H2.
  pose proof (check_inventory_not_low (thresholds sys) cp) as H4.
  rewrite Forall_forall in H1, H2, H4.
  split; [|tauto].
  intros [H | [H | [H | H]]]; [| | exact H |].
  - now apply H1 in H.
  - now apply H2 in H.
  - now apply H4 in H.
Qed.

Lemma check_thirty_day_low_fires low current r :
  r ∈ check_thirty_day_low (Some low) current
  ↔ r = ThirtyDayLow current low ∧ ¬ (low == 0)%Q ∧ (current <= low)%Q.
Proof.
  unfold check_thirty_day_low.
  destruct (truthy_price (Some low)) eqn:Ht; simpl.
  - apply truthy_price_Some in Ht.
    destruct (Qle_bool current low) eqn:Hle.
    + apply Qle_bool_iff in Hle. rewrite list_elem_of_singleton. tauto.
    + rewrite elem_of_nil. split; [tauto|]. intros (_ & _ & H).
      apply Qle_bool_iff in H. congruence.
  - apply truthy_price_Some_false in Ht. rewrite elem_of_nil. tauto.
Qed.

(** *** The 30-day-low rule *)

(** C8, as stated, fails: with a 30-day low of 0 and a current price of 0
    the current price is at the low, and no 30-day-low reason is collected. *)
Lemma thirty_day_low_of_zero_is_ignored :
  let cp := obs 100 None (Some 0%Q) in
  get_effective_price cp = Some 0%Q
  ∧ fst (get_30_day_low (price_tracker free_listing_system) luffy (100 * hour))
    = Some 0%Q
  ∧ fst (collect_reasons free_listing_system luffy cp 0%Q (all_at (100 * hour)))
    = [TargetReached 0 (50 # 1)]
  ∧ ¬ thirty_day_low_as_claimed free_listing_system luffy cp 0%Q
        (all_at (100 * hour)).
Proof.
  intros cp.
  assert (Hr : fst (collect_reasons free_listing_system luffy cp 0%Q
                      (all_at (100 * hour))) = [TargetReached 0 (50 # 1)])
    by (vm_compute; reflexivity).
  split_and!; [reflexivity | vm_compute; reflexivity | exact Hr |].
  intros H. specialize (H 0%Q ltac:(vm_compute; reflexivity)).
  destruct (proj2 H (Qle_refl 0)) as (a & b & Hab).
  rewrite Hr in Hab. apply list_elem_of_singleton in Hab. discriminate Hab.
Qed.

(** C8, amended: whenever the 30-day low is defined, the rule contributes
    its reason exactly when that low is not zero and the current effective
    price is at or below it (a current price equal to the low counts); no
    other 30-day-low reason is ever collected.  In particular, when the
    current observation is itself in the history within the 30 days, its
    price is not zero and no price of the window is below it, the low is
    that price and the rule fires. *)
Theorem thirty_day_low_rule :
  (∀ (sys : AlertSystem) (c : Card) (cp : PriceData) (current : Q) (clk : clock)
     (low : Q),
     fst (get_30_day_low (price_tracker sys) c (t_low clk)) = Some low →
     (ThirtyDayLow current low ∈ fst (collect_reasons sys c cp current clk)
      ↔ ¬ (low == 0)%Q ∧ (current <= low)%Q)
     ∧ (∀ a b, ThirtyDayLow a b ∈ fst (collect_reasons sys c cp current clk) →
          a = current ∧ b = low))
  ∧ (∀ (sys : AlertSystem) (c : Card) (cp : PriceData) (current : Q) (clk : clock)
       (history : list PriceData),
     price_history (ensure_loaded (price_tracker sys) c) !! get_identifier c
       = Some history →
     cp ∈ history →
     t_low clk - timedelta_days 30 < timestamp cp →
     get_effective_price cp = Some current →
     ¬ (current == 0)%Q →
     (∀ p q, p ∈ history → t_low clk - timedelta_days 30 < timestamp p →
             get_effective_price p = Some q → (current <= q)%Q) →
     ∃ low,
       fst (get_30_day_low (price_tracker sys) c (t_low clk)) = Some low
       ∧ (low == current)%Q
       ∧ ThirtyDayLow current low ∈ fst (collect_reasons sys c cp current clk)).
Proof.
  assert (Hgen : ∀ sys c cp current clk low,
     fst (get_30_day_low (price_tracker sys) c (t_low clk)) = Some low →
     (ThirtyDayLow current low ∈ fst (collect_reasons sys c cp current clk)
      ↔ ¬ (low == 0)%Q ∧ (current <= low)%Q)
     ∧ (∀ a b, ThirtyDayLow a b ∈ fst (collect_reasons sys c cp current clk) →
          a = current ∧ b = low)).
  { intros sys c cp current clk low Hlow. split.
    - rewrite thirty_day_low_in_reasons, Hlow, check_thirty_day_low_fires. tauto.
    - intros a b. rewrite thirty_day_low_in_reasons, Hlow, check_thirty_day_low_fires.
      intros [[= -> ->] _]. done. }
  split; [exact Hgen|].
  intros sys c cp current clk history Hh Hin Hts Heff Hnz Hmin.
  assert (Hcur : current ∈ recent_prices (t_low clk - timedelta_days 30) history).
  { apply elem_of_recent_prices. now exists cp. }
  assert (∃ low, fst (get_30_day_low (price_tracker sys) c (t_low clk)) = Some low
                 ∧ py_min Qlt_bool
                     (recent_prices (t_low clk - timedelta_days 30) history)
                   = Some low) as (low & Hlow & Hpy).
  { unfold get_30_day_low. rewrite Hh.
    remember (recent_prices (t_low clk - timedelta_days 30) history) as rp.
    destruct history as [|h0 history]; [now apply elem_of_nil in Hin|].
    destruct rp as [|q l]; [now apply elem_of_nil in Hcur|].
    eexists; split; reflexivity. }
  apply py_min_price in Hpy as [Hlin Hlmin].
  assert (Heq : (low == current)%Q).
  { apply Qle_antisym; [now apply Hlmin|].
    apply elem_of_recent_prices in Hlin as (p & Hp & Hpt & Hpe).
    now apply (Hmin p low). }
  exists low. split_and!; [exact Hlow | exact Heq |].
  apply (Hgen sys c cp current clk low Hlow). split.
  - intros H0. apply Hnz. now rewrite <- Heq.
  - rewrite Heq. apply Qle_refl.
Qed.

Lemma thirty_day_low_rule_witness :
  ThirtyDayLow (48 # 1) (48 # 1)
    ∈ fst (collect_reasons scenario_system luffy (obs 100 (Some (48 # 1)%Q) None)
             (48 # 1)%Q (all_at (100 * hour))).
Proof.
  apply (proj1 thirty_day_low_rule scenario_system luffy
           (obs 100 (Some (48 # 1)%Q) None) (48 # 1)%Q (all_at (100 * hour))
           (48 # 1)%Q ltac:(vm_compute; reflexivity)).
  split; [discriminate | apply Qle_refl].
Defined.

(** *** One evaluation, with every look-up taken on the caller's tracker *)

Lemma with_tracker_twice sys tr tr' :
  with_tracker (with_tracker sys tr) tr' = with_tracker sys tr'.
Proof. reflexivity. Qed.

Lemma is_price_spike_loaded sys c cp now :
  _is_price_spike (with_tracker sys (ensure_loaded (price_tracker sys) c)) c cp now
  = (is_spike sys c cp now,
     with_tracker sys (ensure_loaded (price_tracker sys) c)).
Proof.
  unfold is_spike, _is_price_spike.
  destruct (negb (truthy_price (get_effective_price cp))); [reflexivity|].
  simpl price_tracker. simpl thresholds.
  rewrite get_price_at_timeframe_loaded.
  pose proof (get_price_at_timeframe_tracker (price_tracker sys) c
                (spike_ignore_hours (thresholds sys)) now) as Ht.
  destruct (get_price_at_timeframe _ _ _ _) as [past tr]. simpl in Ht. subst tr.
  rewrite with_tracker_twice.
  destruct past as [past|]; [|reflexivity].
  destruct (negb (truthy_price (get_effective_price past))); reflexivity.
Qed.

(** When the anti-spike check says yes. *)
Lemma is_spike_true sys c cp now :
  is_spike sys c cp now = true
  ↔ ∃ current past past_price,
      get_effective_price cp = Some current ∧ ¬ (current == 0)%Q
      ∧ fst (get_price_at_timeframe (price_tracker sys) c
               (spike_ignore_hours (thresholds sys)) now) = Some past
      ∧ get_effective_price past = Some past_price ∧ ¬ (past_price == 0)%Q
      ∧ (spike_ignore_percent (thresholds sys)
         <= spike_percent current past_price)%Q.
Proof.
  unfold is_spike, _is_price_spike.
  destruct (get_effective_price cp) as [current|] eqn:Hc; simpl;
    [|split; [discriminate | intros (? & ? & ? & [=] & _)]].
  destruct (Qeq_bool current 0) eqn:H0; simpl.
  { apply Qeq_bool_iff in H0. split; [discriminate|].
    intros (? & ? & ? & [= <-] & Hn & _). contradiction. }
  assert (¬ (current == 0)%Q) as Hnz
    by (rewrite <- Qeq_bool_iff; congruence).
  destruct (get_price_at_timeframe _ _ _ _) as [[past|] tr]; simpl;
    [|split; [discriminate | intros (? & ? & ? & _ & _ & [=] & _)]].
  destruct (get_effective_price past) as [past_price|] eqn:Hp; simpl;
    [|split; [discriminate | intros (? & ? & ? & _ & _ & [= <-] & H & _);
                             congruence]].
  destruct (Qeq_bool past_price 0) eqn:Hp0; simpl.
  { apply Qeq_bool_iff in Hp0. split; [discriminate|].
    intros (? & ? & ? & _ & _ & [= <-] & H & Hn & _).
    rewrite Hp in H. injection H as <-. contradiction. }
  assert (¬ (past_price == 0)%Q) as Hpnz
    by (rewrite <- Qeq_bool_iff; congruence).
  rewrite Qle_bool_iff. split.
  - intros Hle. now exists current, past, past_price.
  - intros (cur' & past' & pp' & [= <-] & _ & [= <-] & H & _ & Hle).
    rewrite Hp in H. now injection H as <-.
Qed.

(** [check_alert_conditions] step by step: the gate, the effective price,
    the veto of the anti-spike check, the reasons.  Only the last step
    records a cooldown. *)
Lemma check_alert_conditions_unfold sys c cp d clk :
  check_alert_conditions sys c cp d clk =
    if cooldown_active sys (get_identifier c) d (t_gate clk) then (None, sys)
    else
      match get_effective_price cp with
      | None => (None, sys)
      | Some current =>
          let loaded := ensure_loaded (price_tracker sys) c in
          if is_spike sys c cp (t_spike clk)
          then (None, with_tracker sys loaded)
          else
            match fst (collect_reasons sys c cp current clk) with
            | [] => (None, with_tracker sys loaded)
            | reasons =>
                (Some (make_alert sys c cp reasons clk),
                 {| price_tracker := snd (get_latest_price loaded c);
                    thresholds := thresholds sys;
                    last_alert_times :=
                      <[get_identifier c := t_stamp clk]>
                        (last_alert_times sys) |})
            end
      end.
Proof.
  unfold check_alert_conditions.
  destruct (cooldown_active _ _ _ _); [reflexivity|].
  destruct (get_effective_price cp) as [current|]; [|reflexivity].
  rewrite collect_reasons_unfold. cbv zeta.
  rewrite is_price_spike_loaded.
  destruct (is_spike sys c cp (t_spike clk)); [reflexivity|].
  simpl fst.
  destruct (_ ++ _)%list as [|r reasons]; [reflexivity|].
  simpl price_tracker.
  pose proof (get_latest_price_loaded (price_tracker sys) c) as Hl.
  unfold make_alert. rewrite <- Hl.
  destruct (get_latest_price (ensure_loaded (price_tracker sys) c) c)
    as [latest tr]. reflexivity.
Qed.

(** *** Anti-spike suppression *)

(** C1, as stated, fails: a current effective price of 0 over a baseline of
    10 is a change of -100 percent (exactly, and as the source computes it),
    which reaches a threshold of -100, and the evaluation still alerts (first reason: target reached) and starts a
    cooldown, because the anti-spike check gives up on a price of 0. *)
Lemma zero_price_is_never_a_spike :
  let cp := obs 100 None (Some 0%Q) in
  let r := check_alert_conditions wide_spike_system luffy cp 6 (all_at (100 * hour)) in
  (λ a, head (alert_reasons a)) <$> fst r = Some (Some (TargetReached 0 (50 # 1)))
  ∧ last_alert_times (snd r) !! get_identifier luffy = Some (100 * hour)
  ∧ (spike_percent 0 (10 # 1) == -100)%Q
  ∧ ¬ spike_suppression_as_claimed wide_spike_system luffy cp 6
        (all_at (100 * hour)).
Proof.
  intros cp r.
  split_and!; [vm_compute; reflexivity | vm_compute; reflexivity
              | vm_compute; reflexivity |].
  intros H.
  destruct (H 0%Q (obs 99 (Some (10 # 1)%Q) None) (10 # 1)%Q) as [Hn _].
  - reflexivity.
  - vm_compute; reflexivity.
  - reflexivity.
  - reflexivity.
  - apply Qle_bool_iff. reflexivity.
  - vm_compute in Hn. discriminate Hn.
Qed.

(** The rounding shows at the threshold: from 100 to 129 is a change of 29
    percent, the source computes 28.999999999999996, and with a threshold of
    29 the anti-spike check lets the evaluation alert. *)
Lemma spike_percent_is_rounded :
  let cp := obs 100 (Some (129 # 1)%Q) None in
  let r := check_alert_conditions threshold_spike_system luffy cp 6
             (all_at (100 * hour)) in
  (exact_percent_change (129 # 1) (100 # 1) == 29)%Q
  ∧ (spike_percent (129 # 1) (100 # 1) == 8162774324609023 # 281474976710656)%Q
  ∧ is_spike threshold_spike_system luffy cp (100 * hour) = false
  ∧ alert_reasons <$> fst r = Some [LowInventory 10]
  ∧ last_alert_times (snd r) !! get_identifier luffy = Some (100 * hour).
Proof. intros cp r. split_and!; vm_compute; reflexivity. Qed.

Lemma spike_percent_of_zero past_price :
  (round64 past_price == past_price)%Q → (0 < past_price)%Q →
  (spike_percent 0 past_price == -100)%Q.
Proof. apply percent_of_zero. Qed.

Lemma spike_percent_proper current current' past_price :
  (current == current')%Q →
  spike_percent current past_price = spike_percent current' past_price.
Proof.
  intros H. unfold spike_percent, fsub.
  now rewrite (round64_proper (current - past_price) (current' - past_price))
    by (rewrite H; reflexivity).
Qed.

(** C1, amended: if the observation nearest to [now] minus the spike window
    has a positive effective price, the change of the current effective
    price over it, as the source computes it in binary64, reaches
    [spike_ignore_percent], and the current effective price is not zero
    (which a threshold above -100 already implies), then the evaluation
    returns no alert, whatever rules fired, and leaves every cooldown
    timestamp as it was. *)
Theorem spike_suppresses_alert (sys : AlertSystem) (c : Card) (cp : PriceData)
    (d : Z) (clk : clock) (current : Q) (past : PriceData) (past_price : Q) :
  get_effective_price cp = Some current →
  fst (get_price_at_timeframe (price_tracker sys) c
         (spike_ignore_hours (thresholds sys)) (t_spike clk)) = Some past →
  get_effective_price past = Some past_price →
  (0 < past_price)%Q →
  (spike_ignore_percent (thresholds sys) <= spike_percent current past_price)%Q →
  ¬ (current == 0)%Q
  ∨ ((round64 past_price == past_price)%Q
     ∧ (-100 < spike_ignore_percent (thresholds sys))%Q) →
  fst (check_alert_conditions sys c cp d clk) = None
  ∧ last_alert_times (snd (check_alert_conditions sys c cp d clk))
    = last_alert_times sys.
Proof.
  intros Hc Hpast Hpp Hpos Hle Hnz.
  assert (Hcur : ¬ (current == 0)%Q).
  { destruct Hnz as [Hnz | [Hfl Hthr]]; [exact Hnz|].
    intros H0. rewrite (spike_percent_proper current 0 past_price H0) in Hle.
    pose proof (spike_percent_of_zero past_price Hfl Hpos) as Hs.
    rewrite Hs in Hle. lra. }
  assert (Hspike : is_spike sys c cp (t_spike clk) = true).
  { apply is_spike_true. exists current, past, past_price.
    split_and!; try assumption.
    intros H0. rewrite H0 in Hpos. now apply Qlt_irrefl in Hpos. }
  rewrite check_alert_conditions_unfold.
  destruct (cooldown_active _ _ _ _); [now split|].
  rewrite Hc. cbv zeta. rewrite Hspike. now split.
Qed.

(** At 45 the target of 50 is reached, and 45 is 50 percent above 30. *)
Lemma spike_suppresses_alert_witness :
  TargetReached (45 # 1) (50 # 1)
    ∈ fst (collect_reasons spiking_system luffy (obs 100 (Some (45 # 1)%Q) None)
             (45 # 1)%Q (all_at (100 * hour)))
  ∧ fst (check_alert_conditions spiking_system luffy
           (obs 100 (Some (45 # 1)%Q) None) 6 (all_at (100 * hour))) = None
  ∧ last_alert_times
      (snd (check_alert_conditions spiking_system luffy
              (obs 100 (Some (45 # 1)%Q) None) 6 (all_at (100 * hour))))
    = last_alert_times spiking_system.
Proof.
  split; [vm_compute; left|].
  apply (spike_suppresses_alert spiking_system luffy
           (obs 100 (Some (45 # 1)%Q) None) 6 (all_at (100 * hour))
           (45 # 1)%Q (obs 95 (Some (30 # 1)%Q) None) (30 # 1)%Q).
  - reflexivity.
  - vm_compute; reflexivity.
  - reflexivity.
  - reflexivity.
  - apply Qle_bool_iff. reflexivity.
  - left. discriminate.
Defined.

(** *** Cooldown *)

Lemma cooldown_gate_blocks sys c cp d clk last :
  last_alert_times sys !! get_identifier c = Some last →
  t_gate clk < last + timedelta_hours d →
  check_alert_conditions sys c cp d clk = (None, sys).
Proof.
  intros Hl Hlt. unfold check_alert_conditions, cooldown_active. rewrite Hl.
  destruct (t_gate clk - last <? timedelta_hours d) eqn:E; [reflexivity|].
  apply Z.ltb_ge in E. lia.
Qed.

(** An alert records the reading [t_stamp] as the cooldown of its card. *)
Lemma alert_records_cooldown sys c cp d clk alert :
  fst (check_alert_conditions sys c cp d clk) = Some alert →
  last_alert_times (snd (check_alert_conditions sys c cp d clk))
    = <[get_identifier c := t_stamp clk]> (last_alert_times sys)
  ∧ alert_reasons alert ≠ []
  ∧ alert = make_alert sys c cp (alert_reasons alert) clk.
Proof.
  rewrite check_alert_conditions_unfold.
  destruct (cooldown_active _ _ _ _); [discriminate|].
  destruct (get_effective_price cp) as [current|]; [|discriminate]. cbv zeta.
  destruct (is_spike _ _ _ _); [discriminate|].
  destruct (fst (collect_reasons _ _ _ _ _)) as [|r reasons]; [discriminate|].
  simpl. intros [= <-]. now split_and!.
Qed.

(** C2: after an evaluation of a card has produced an alert, with the
    cooldown recorded at [t0] and a cooldown of [d] hours, every evaluation
    of the card whose gate reading lies in [t0, t0 + d) returns no alert and
    returns the evaluator, tracker included, exactly as it was; so does any
    series of such evaluations.  From [t0 + d] on the gate is open. *)
Theorem cooldown_blocks_window (sys : AlertSystem) (c : Card) (cp : PriceData)
    (d : Z) (clk : clock) (alert : PriceAlert) :
  fst (check_alert_conditions sys c cp d clk) = Some alert →
  let sys' := snd (check_alert_conditions sys c cp d clk) in
  let t0 := t_stamp clk in
  last_alert_times sys' !! get_identifier c = Some t0
  ∧ (∀ cp2 clk2,
       t0 ≤ t_gate clk2 < t0 + timedelta_hours d →
       check_alert_conditions sys' c cp2 d clk2 = (None, sys'))
  ∧ (∀ calls,
       Forall (λ call, t0 ≤ t_gate (snd call) < t0 + timedelta_hours d) calls →
       check_repeatedly sys' c d calls = (map (λ _, None) calls, sys'))
  ∧ (∀ now, t0 + timedelta_hours d ≤ now →
       cooldown_active sys' (get_identifier c) d now = false).
Proof.
  intros Ha sys' t0.
  assert (Hl : last_alert_times sys' !! get_identifier c = Some t0).
  { destruct (alert_records_cooldown _ _ _ _ _ _ Ha) as [Hl _].
    unfold sys'. rewrite Hl. apply lookup_insert_eq. }
  assert (Hone : ∀ cp2 clk2,
            t0 ≤ t_gate clk2 < t0 + timedelta_hours d →
            check_alert_conditions sys' c cp2 d clk2 = (None, sys')).
  { intros cp2 clk2 [_ Hlt]. now apply (cooldown_gate_blocks _ _ _ _ _ t0). }
  split_and!; [exact Hl | exact Hone | |].
  - induction 1 as [|[cp2 clk2] calls Hcall _ IH]; simpl; [reflexivity|].
    now rewrite (Hone cp2 clk2 Hcall), IH.
  - intros now Hnow. unfold cooldown_active. rewrite Hl.
    apply Z.ltb_ge. lia.
Qed.

Lemma cooldown_blocks_window_witness :
  check_alert_conditions alerted_system luffy (obs 105 (Some (44 # 1)%Q) None) 6
    (all_at (105 * hour)) = (None, alerted_system)
  ∧ cooldown_active alerted_system (get_identifier luffy) 6 (106 * hour) = false.
Proof.
  pose proof (cooldown_blocks_window quiet_system luffy
                (obs 100 (Some (45 # 1)%Q) None) 6 (all_at (100 * hour)) _
                ltac:(vm_compute; reflexivity)) as (_ & Hone & _ & Hopen).
  split.
  - apply Hone. vm_compute. split; [discriminate | reflexivity].
  - apply Hopen. vm_compute. discriminate.
Defined.

(** After the window the same card alerts again. *)
Example alert_again_after_cooldown :
  is_Some (fst (check_alert_conditions alerted_system luffy
                  (obs 106 (Some (44 # 1)%Q) None) 6 (all_at (106 * hour)))).
Proof. eexists. vm_compute. reflexivity. Qed.

(** *** The previous observation of an alert *)

Lemma opt_price_eqb_refl a : opt_price_eqb a a = true.
Proof. destruct a; simpl; [apply Qeq_bool_refl | reflexivity]. Qed.

Lemma opt_str_eqb_refl a : opt_str_eqb a a = true.
Proof. destruct a; simpl; [apply String.eqb_refl | reflexivity]. Qed.

Lemma PriceData_eqb_refl pd : PriceData_eqb pd pd = true.
Proof.
  unfold PriceData_eqb.
  now rewrite String.eqb_refl, !Z.eqb_refl, !opt_price_eqb_refl, opt_str_eqb_refl.
Qed.

(** C10: when the store's latest observation of the card compares equal to
    the current observation, an alert that is built has no previous
    observation; an alert has a previous observation only if it is the
    store's latest and differs from the current one.  In the batch flow, where
    the observation is saved (and the save completes) before it is
    evaluated, every alert has no previous observation. *)
Theorem previous_price_only_when_different :
  (∀ (sys : AlertSystem) (c : Card) (cp : PriceData) (d : Z) (clk : clock)
     (alert : PriceAlert),
     fst (check_alert_conditions sys c cp d clk) = Some alert →
     (∀ p, fst (get_latest_price (price_tracker sys) c) = Some p →
           PriceData_eqb p cp = true → previous_price alert = None)
     ∧ (∀ p, previous_price alert = Some p →
             fst (get_latest_price (price_tracker sys) c) = Some p
             ∧ PriceData_eqb p cp = false))
  ∧ (∀ (sys : AlertSystem) (c : Card) (pd : PriceData) (now_save d : Z)
       (clk : clock) (olds : list PriceData) (alert : PriceAlert),
     get_identifier c = card_id pd →
     persisted_records (price_tracker sys) (card_id pd) = Some olds →
     fst (check_prices_step sys c (Some pd) now_save WriteOk d clk) = Some alert →
     previous_price alert = None).
Proof.
  assert (Hgen : ∀ sys c cp d clk alert,
     fst (check_alert_conditions sys c cp d clk) = Some alert →
     (∀ p, fst (get_latest_price (price_tracker sys) c) = Some p →
           PriceData_eqb p cp = true → previous_price alert = None)
     ∧ (∀ p, previous_price alert = Some p →
             fst (get_latest_price (price_tracker sys) c) = Some p
             ∧ PriceData_eqb p cp = false)).
  { intros sys c cp d clk alert Ha.
    destruct (alert_records_cooldown _ _ _ _ _ _ Ha) as (_ & _ & ->).
    unfold make_alert; simpl. split.
    - intros p -> Heq. now rewrite Heq.
    - intros p. destruct (fst (get_latest_price _ _)) as [q|]; [|discriminate].
      destruct (PriceData_eqb q cp) eqn:E; [discriminate|].
      now intros [= <-]. }
  split; [exact Hgen|].
  intros sys c pd now_save d clk olds alert Hid Hp.
  unfold check_prices_step.
  destruct (negb (enabled c)); [discriminate|].
  destruct (get_effective_price pd); [|discriminate].
  intros Ha. apply Hgen in Ha as [Ha _].
  apply (Ha pd); [|apply PriceData_eqb_refl].
  simpl. now apply (save_price_data_ok_latest _ _ _ _ olds).
Qed.

Lemma previous_price_only_when_different_witness :
  previous_price <$>
    fst (check_prices_step quiet_system luffy (Some (obs 100 (Some (45 # 1)%Q) None))
           (100 * hour) WriteOk 6 (all_at (100 * hour)))
  = Some None.
Proof.
  destruct (fst (check_prices_step quiet_system luffy
                   (Some (obs 100 (Some (45 # 1)%Q) None))
                   (100 * hour) WriteOk 6 (all_at (100 * hour))))
    as [alert|] eqn:E; [|vm_compute in E; discriminate E].
  simpl. do 2 f_equal.
  apply (proj2 previous_price_only_when_different quiet_system luffy
           (obs 100 (Some (45 # 1)%Q) None) (100 * hour) 6 (all_at (100 * hour))
           [] alert);
    [reflexivity | vm_compute; reflexivity | exact E].
Defined.

(** Evaluated without being saved first, the same observation gets the
    cached one as its previous observation. *)
Example previous_price_defined_when_not_saved :
  previous_price <$>
    fst (check_alert_conditions quiet_system luffy (obs 100 (Some (45 # 1)%Q) None)
           6 (all_at (100 * hour)))
  = Some (Some (obs 99 (Some (40 # 1)%Q) None)).
Proof. vm_compute; reflexivity. Qed.

(** * Further properties of the store *)

Lemma string_append_length (s t : string) :
  String.length (s ++ t) = (String.length s + String.length t)%nat.
Proof. induction s as [|a s IH]; simpl; [reflexivity | now rewrite IH]. Qed.

Lemma string_append_inj_l (s1 s2 t : string) :
  (s1 ++ t)%string = (s2 ++ t)%string → s1 = s2.
Proof.
  revert s2; induction s1 as [|a s1 IH]; intros [|b s2] H.
  - reflexivity.
  - exfalso. apply (f_equal String.length) in H.
    rewrite !string_append_length in H. simpl in H. lia.
  - exfalso. apply (f_equal String.length) in H.
    rewrite !string_append_length in H. simpl in H. lia.
  - simpl in H. injection H as -> H. f_equal. now apply IH.
Qed.

Lemma split_slash_slash_free s : slash_free s = true → split_slash s = [s].
Proof.
  induction s as [|a s IH]; simpl; [reflexivity|].
  destruct (Ascii.eqb a "/"); simpl; [discriminate|].
  intros H. now rewrite (IH H).
Qed.

Lemma slash_free_app s t :
  slash_free (s ++ t) = slash_free s && slash_free t.
Proof.
  induction s as [|a s IH]; simpl; [reflexivity|].
  now rewrite IH, andb_assoc.
Qed.

(** The history file of a key without a slash is the entry of that name in
    [data_dir]. *)
Lemma get_history_file_slash_free cid :
  slash_free cid = true →
  get_history_file cid
  = (""%string, ["data"%string; (cid ++ "_history.json")%string]).
Proof.
  intros H. unfold get_history_file, path_join.
  assert (Hroot : path_root (cid ++ "_history.json") = ""%string).
  { unfold path_root. destruct cid as [|a cid]; [reflexivity|].
    simpl in *. now destruct (Ascii.eqb a "/"). }
  rewrite Hroot. simpl. f_equal. f_equal.
  unfold path_parts. rewrite split_slash_slash_free
    by (rewrite slash_free_app, H; reflexivity).
  assert (Hlen : (13 <= String.length (cid ++ "_history.json"))%nat)
    by (rewrite string_append_length; simpl; lia).
  simpl.
  destruct (String.eqb_spec (cid ++ "_history.json") "") as [E | _];
    [rewrite E in Hlen; simpl in Hlen; lia|].
  destruct (String.eqb_spec (cid ++ "_history.json") ".") as [E | _];
    [rewrite E in Hlen; simpl in Hlen; lia|].
  reflexivity.
Qed.

(** Two keys without a slash share a history file only if they are equal. *)
Lemma get_history_file_inj cid1 cid2 :
  slash_free cid1 = true → slash_free cid2 = true →
  get_history_file cid1 = get_history_file cid2 → cid1 = cid2.
Proof.
  intros H1 H2. rewrite !get_history_file_slash_free by assumption.
  intros [= H]. now apply string_append_inj_l in H.
Qed.

(** Keys with slashes can share a file: [pathlib] drops the components
    ["."] and the empty ones, so a save under the key ["./A"] writes the
    file of the key ["A"]. *)
Example get_history_file_normalises :
  let pd := {| card_id := "./A"; timestamp := 100 * hour;
               market_price := Some (3 # 1)%Q; lowest_price := None;
               listing_count := 7; tcgplayer_url := None |} in
  get_history_file "./A" = get_history_file "A"
  ∧ get_history_file "B//A" = get_history_file "B/A"
  ∧ get_history_file "/A" ≠ get_history_file "A"
  ∧ files empty_tracker !! get_history_file "A" = None
  ∧ files (save_price_data empty_tracker pd (100 * hour) WriteOk)
      !! get_history_file "A" = Some (Records [new_entry pd]).
Proof.
  intros pd. split_and!; [reflexivity | reflexivity | discriminate
                         | reflexivity | vm_compute; reflexivity].
Qed.

(** X1: a save, whatever becomes of it, leaves the cache of every other key
    as it was, and, between keys without a slash, the log of every other
    key. *)
Theorem save_price_data_other_cards (tr : PriceTracker) (pd : PriceData)
    (now : Z) (w : write_outcome) (cid : string) :
  cid ≠ card_id pd →
  price_history (save_price_data tr pd now w) !! cid = price_history tr !! cid
  ∧ (slash_free cid = true → slash_free (card_id pd) = true →
     files (save_price_data tr pd now w) !! get_history_file cid
     = files tr !! get_history_file cid).
Proof.
  intros Hne.
  unfold save_price_data. destruct (_ ≫= _) as [data|]; [|now split].
  destruct w as [|residue]; simpl.
  - rewrite lookup_insert_ne by congruence. split; [reflexivity|].
    intros H1 H2. rewrite lookup_insert_ne; [reflexivity|].
    intros H. apply get_history_file_inj in H; congruence.
  - split; [reflexivity|].
    intros H1 H2. rewrite lookup_partial_alter_ne; [reflexivity|].
    intros H. apply get_history_file_inj in H; congruence.
Qed.

Lemma save_price_data_other_cards_witness :
  let pd := {| card_id := "Nami_OP01_R_English"; timestamp := 100 * hour;
               market_price := Some (3 # 1)%Q; lowest_price := None;
               listing_count := 7; tcgplayer_url := None |} in
  price_history (save_price_data cached_tracker pd (100 * hour) WriteOk)
    !! get_identifier luffy
  = price_history cached_tracker !! get_identifier luffy
  ∧ files (save_price_data cached_tracker pd (100 * hour) WriteOk)
      !! get_history_file (get_identifier luffy)
    = files cached_tracker !! get_history_file (get_identifier luffy).
Proof.
  intros pd.
  destruct (save_price_data_other_cards cached_tracker pd (100 * hour) WriteOk
              (get_identifier luffy)) as [Hc Hf].
  - vm_compute. discriminate.
  - split; [exact Hc | apply Hf; reflexivity].
Defined.

Lemma keep_recent_unreadable cutoff data it :
  it ∈ data → entry_timestamp it = None → keep_recent cutoff data = None.
Proof.
  induction 1 as [it data | it it' data _ IH]; intros Ht; simpl.
  - now rewrite Ht.
  - destruct (entry_timestamp it'); simpl; [|reflexivity].
    now rewrite (IH Ht).
Qed.

(** X2: when the log of the card cannot be read, or holds one entry whose
    timestamp cannot be read, a save changes nothing: the observation reaches
    neither the log nor the cache, whether or not the write would succeed. *)
Theorem save_price_data_blocked_by_log (tr : PriceTracker) (pd : PriceData)
    (now : Z) (w : write_outcome) :
  files tr !! get_history_file (card_id pd) = Some Corrupt
  ∨ (∃ data it,
       files tr !! get_history_file (card_id pd) = Some (Records data)
       ∧ it ∈ data ∧ entry_timestamp it = None) →
  save_price_data tr pd now w = tr.
Proof.
  unfold save_price_data. intros [-> | (data & it & -> & Hin & Ht)]; simpl.
  - reflexivity.
  - rewrite (keep_recent_unreadable _ (data ++ [new_entry pd]) it); try done.
    apply elem_of_app. now left.
Qed.

Lemma save_price_data_blocked_by_log_witness :
  save_price_data tracker_with_one_malformed (obs 30 (Some (44 # 1)%Q) None)
    (30 * hour) WriteOk
  = tracker_with_one_malformed.
Proof.
  apply save_price_data_blocked_by_log. right.
  exists log_with_one_malformed, entry_without_timestamp.
  split_and!; [vm_compute; reflexivity | | reflexivity].
  unfold log_with_one_malformed. right. left.
Defined.

(** X3: an observation whose timestamp is not after [now] minus 90 days is
    not written to the log by a save that completes, but it is put at the
    head of the cache: it is the latest observation until the next load,
    which does not return it. *)
Theorem save_price_data_stale_observation (tr : PriceTracker) (pd : PriceData)
    (now : Z) (c : Card) (olds : list PriceData) :
  get_identifier c = card_id pd →
  persisted_records tr (card_id pd) = Some olds →
  timestamp pd ≤ now - timedelta_days 90 →
  let tr' := save_price_data tr pd now WriteOk in
  persisted_records tr' (card_id pd)
    = Some (filter (λ p, now - timedelta_days 90 < timestamp p) olds)
  ∧ fst (get_latest_price tr' c) = Some pd
  ∧ pd ∉ fst (load_history tr' c).
Proof.
  intros Hid Hp Hold tr'.
  destruct (save_price_data_ok tr pd now olds Hp) as (data & Hd & Hs & _).
  rewrite filter_app, filter_cons_False, filter_nil, app_nil_r in Hd by lia.
  assert (Hp' : persisted_records tr' (card_id pd)
                = Some (filter (λ p, now - timedelta_days 90 < timestamp p) olds)).
  { unfold persisted_records, tr'. rewrite Hs. simpl.
    now rewrite lookup_insert_eq. }
  split_and!; [exact Hp' | now apply (save_price_data_ok_latest _ _ _ _ olds) |].
  rewrite load_history_persisted, Hid, Hp'.
  unfold tr'. rewrite Hs. simpl. rewrite lookup_insert_eq. simpl.
  rewrite sort_newest_first_perm, list_elem_of_filter. lia.
Qed.

Lemma save_price_data_stale_observation_witness :
  fst (get_latest_price
         (save_price_data aged_log_tracker (obs (100 * 24) (Some (60 # 1)%Q) None)
            (200 * day) WriteOk) luffy)
  = Some (obs (100 * 24) (Some (60 # 1)%Q) None).
Proof.
  apply (save_price_data_stale_observation aged_log_tracker
           (obs (100 * 24) (Some (60 # 1)%Q) None) (200 * day) luffy
           [obs (100 * 24) (Some (52 # 1)%Q) None;
            obs (198 * 24) (Some (48 # 1)%Q) None]);
    [reflexivity | vm_compute; reflexivity | vm_compute; discriminate].
Defined.

Lemma load_history_cases tr c :
  load_history tr c = ([], tr)
  ∨ ∃ content h,
      files tr !! get_history_file (get_identifier c) = Some content
      ∧ (data ← json_load content; mapM parse_item data) = Some h
      ∧ load_history tr c
        = (sort_newest_first h,
           set_history tr (get_identifier c) (sort_newest_first h)).
Proof.
  unfold load_history.
  destruct (files tr !! _) as [content|]; [|now left].
  destruct (_ ≫= _) as [h|] eqn:Hh; [|now left].
  right. exists content, h. split_and!; [reflexivity | exact Hh | reflexivity].
Qed.

Lemma load_history_twice tr c :
  load_history (snd (load_history tr c)) c = load_history tr c.
Proof.
  destruct (load_history_cases tr c) as [H | (content & h & Hf & Hh & H)];
    rewrite H; simpl.
  - exact H.
  - unfold load_history. simpl. rewrite Hf, Hh. f_equal.
    unfold set_history. simpl. f_equal. apply insert_insert_eq.
Qed.

(** X4: loading never changes a file, and loading a second time returns
    the same history and changes nothing more. *)
Theorem load_history_idempotent (tr : PriceTracker) (c : Card) :
  files (snd (load_history tr c)) = files tr
  ∧ load_history (snd (load_history tr c)) c
    = (fst (load_history tr c), snd (load_history tr c)).
Proof.
  split; [apply load_history_files|].
  rewrite load_history_twice. now destruct (load_history tr c).
Qed.




(** [max] of a list of prices is a price of the list, above all of them. *)
Lemma foldl_max_price (l : list Q) (b : Q) :
  foldl (λ best y, if Qlt_bool best y then y else best) b l ∈ b :: l
  ∧ ∀ y, y ∈ b :: l →
      (y <= foldl (λ best y, if Qlt_bool best y then y else best) b l)%Q.
Proof.
  revert b; induction l as [|y l IH]; intros b; simpl.
  - split; [left|]. intros y ->%list_elem_of_singleton. apply Qle_refl.
  - destruct (Qlt_bool b y) eqn:E.
    + apply Qlt_bool_iff in E. destruct (IH y) as [Hin Hmax].
      split; [now right|].
      intros z [-> | Hz]%elem_of_cons; [|now apply Hmax].
      apply Qle_trans with y; [now apply Qlt_le_weak | apply Hmax; left].
    + assert (y <= b)%Q as Hyb.
      { apply Qnot_lt_le. intros H. apply Qlt_bool_iff in H. congruence. }
      destruct (IH b) as [Hin Hmax]. split.
      * apply elem_of_cons in Hin as [-> | Hin]; [left | right; now right].
      * intros z [-> | [-> | Hz]%elem_of_cons]%elem_of_cons.
        -- apply Hmax; left.
        -- apply Qle_trans with b; [exact Hyb | apply Hmax; left].
        -- apply Hmax; now right.
Qed.

Lemma py_max_price l m :
  py_max Qlt_bool l = Some m → m ∈ l ∧ ∀ y, y ∈ l → (y <= m)%Q.
Proof.
  destruct l as [|b l]; [discriminate|]. intros [= <-]. apply foldl_max_price.
Qed.

Lemma get_30_day_low_cached tr c now history :
  price_history (ensure_loaded tr c) !! get_identifier c = Some history →
  fst (get_30_day_low tr c now)
  = py_min Qlt_bool (recent_prices (now - timedelta_days 30) history).
Proof.
  intros Hh. unfold get_30_day_low. rewrite Hh. now destruct history.
Qed.

Lemma get_highest_price_in_period_cached tr c hours now history :
  price_history (ensure_loaded tr c) !! get_identifier c = Some history →
  fst (get_highest_price_in_period tr c hours now)
  = py_max Qlt_bool (recent_prices (now - timedelta_hours hours) history).
Proof.
  intros Hh. unfold get_highest_price_in_period. rewrite Hh. now destruct history.
Qed.

(** X6: over the history of the card (cached, or loaded by the query), the
    30-day low is the effective price of an observation strictly newer than
    [now] minus 30 days and no such observation has a lower effective price;
    it is undefined exactly when no such observation has an effective
    price. *)
Theorem get_30_day_low_is_minimum (tr : PriceTracker) (c : Card) (now : Z)
    (history : list PriceData) :
  price_history (ensure_loaded tr c) !! get_identifier c = Some history →
  match fst (get_30_day_low tr c now) with
  | Some low =>
      (∃ pd, pd ∈ history ∧ now - timedelta_days 30 < timestamp pd
             ∧ get_effective_price pd = Some low)
      ∧ ∀ pd q, pd ∈ history → now - timedelta_days 30 < timestamp pd →
                get_effective_price pd = Some q → (low <= q)%Q
  | None =>
      ∀ pd, pd ∈ history → now - timedelta_days 30 < timestamp pd →
            get_effective_price pd = None
  end.
Proof.
  intros Hh. rewrite (get_30_day_low_cached _ _ _ _ Hh).
  destruct (py_min Qlt_bool _) as [low|] eqn:E.
  - apply py_min_price in E as [Hin Hmin]. split.
    + now apply elem_of_recent_prices.
    + intros pd q Hpd Hts Hq. apply Hmin, elem_of_recent_prices. now exists pd.
  - intros pd Hpd Hts.
    destruct (get_effective_price pd) as [q|] eqn:Hq; [|reflexivity].
    assert (q ∈ recent_prices (now - timedelta_days 30) history) as Hin
      by (apply elem_of_recent_prices; now exists pd).
    destruct (recent_prices _ _); [now apply elem_of_nil in Hin | discriminate].
Qed.

Lemma get_30_day_low_is_minimum_witness :
  match fst (get_30_day_low (price_tracker scenario_system) luffy (100 * hour)) with
  | Some low =>
      (∃ pd, pd ∈ [obs 96 (Some (52 # 1)%Q) None; obs 72 (Some (48 # 1)%Q) None;
                   obs 48 (Some (55 # 1)%Q) None; obs 24 (Some (48 # 1)%Q) None]
             ∧ 100 * hour - timedelta_days 30 < timestamp pd
             ∧ get_effective_price pd = Some low)
      ∧ ∀ pd q, pd ∈ [obs 96 (Some (52 # 1)%Q) None; obs 72 (Some (48 # 1)%Q) None;
                      obs 48 (Some (55 # 1)%Q) None; obs 24 (Some (48 # 1)%Q) None] →
                100 * hour - timedelta_days 30 < timestamp pd →
                get_effective_price pd = Some q → (low <= q)%Q
  | None =>
      ∀ pd, pd ∈ [obs 96 (Some (52 # 1)%Q) None; obs 72 (Some (48 # 1)%Q) None;
                  obs 48 (Some (55 # 1)%Q) None; obs 24 (Some (48 # 1)%Q) None] →
            100 * hour - timedelta_days 30 < timestamp pd →
            get_effective_price pd = None
  end.
Proof.
  apply get_30_day_low_is_minimum. vm_compute. reflexivity.
Defined.

(** X7: the highest price in a period is the effective price of an
    observation strictly newer than [now] minus [hours] and no such
    observation has a higher effective price; it is undefined exactly when
    no such observation has an effective price. *)
Theorem get_highest_price_in_period_is_maximum (tr : PriceTracker) (c : Card)
    (hours now : Z) (history : list PriceData) :
  price_history (ensure_loaded tr c) !! get_identifier c = Some history →
  match fst (get_highest_price_in_period tr c hours now) with
  | Some high =>
      (∃ pd, pd ∈ history ∧ now - timedelta_hours hours < timestamp pd
             ∧ get_effective_price pd = Some high)
      ∧ ∀ pd q, pd ∈ history → now - timedelta_hours hours < timestamp pd →
                get_effective_price pd = Some q → (q <= high)%Q
  | None =>
      ∀ pd, pd ∈ history → now - timedelta_hours hours < timestamp pd →
            get_effective_price pd = None
  end.
Proof.
  intros Hh. rewrite (get_highest_price_in_period_cached _ _ _ _ _ Hh).
  destruct (py_max Qlt_bool _) as [high|] eqn:E.
  - apply py_max_price in E as [Hin Hmax]. split.
    + now apply elem_of_recent_prices.
    + intros pd q Hpd Hts Hq. apply Hmax, elem_of_recent_prices. now exists pd.
  - intros pd Hpd Hts.
    destruct (get_effective_price pd) as [q|] eqn:Hq; [|reflexivity].
    assert (q ∈ recent_prices (now - timedelta_hours hours) history) as Hin
      by (apply elem_of_recent_prices; now exists pd).
    destruct (recent_prices _ _); [now apply elem_of_nil in Hin | discriminate].
Qed.

Lemma get_highest_price_in_period_is_maximum_witness :
  match fst (get_highest_price_in_period (price_tracker scenario_system) luffy 60
               (100 * hour)) with
  | Some high =>
      (∃ pd, pd ∈ [obs 96 (Some (52 # 1)%Q) None; obs 72 (Some (48 # 1)%Q) None;
                   obs 48 (Some (55 # 1)%Q) None; obs 24 (Some (48 # 1)%Q) None]
             ∧ 100 * hour - timedelta_hours 60 < timestamp pd
             ∧ get_effective_price pd = Some high)
      ∧ ∀ pd q, pd ∈ [obs 96 (Some (52 # 1)%Q) None; obs 72 (Some (48 # 1)%Q) None;
                      obs 48 (Some (55 # 1)%Q) None; obs 24 (Some (48 # 1)%Q) None] →
                100 * hour - timedelta_hours 60 < timestamp pd →
                get_effective_price pd = Some q → (q <= high)%Q
  | None =>
      ∀ pd, pd ∈ [obs 96 (Some (52 # 1)%Q) None; obs 72 (Some (48 # 1)%Q) None;
                  obs 48 (Some (55 # 1)%Q) None; obs 24 (Some (48 # 1)%Q) None] →
            100 * hour - timedelta_hours 60 < timestamp pd →
            get_effective_price pd = None
  end.
Proof.
  apply get_highest_price_in_period_is_maximum. vm_compute. reflexivity.
Defined.

(** X8: the 30-day low and the highest price of the last 720 hours are
    defined together, and then the low is at most the high. *)
Theorem thirty_day_low_below_high (tr : PriceTracker) (c : Card) (now : Z) :
  match fst (get_30_day_low tr c now),
        fst (get_highest_price_in_period tr c 720 now) with
  | Some low, Some high => (low <= high)%Q
  | None, None => True
  | _, _ => False
  end.
Proof.
  destruct (price_history (ensure_loaded tr c) !! get_identifier c)
    as [history|] eqn:Hh.
  - rewrite (get_30_day_low_cached _ _ _ _ Hh),
      (get_highest_price_in_period_cached _ _ _ _ _ Hh).
    replace (timedelta_hours 720) with (timedelta_days 30) by reflexivity.
    destruct (recent_prices (now - timedelta_days 30) history) as [|q l];
      [exact I|].
    unfold py_min, py_max.
    destruct (foldl_min_price l q) as [_ Hmin].
    destruct (foldl_max_price l q) as [_ Hmax].
    apply Qle_trans with q; [apply Hmin | apply Hmax]; left.
  - unfold get_30_day_low, get_highest_price_in_period. now rewrite Hh.
Qed.

Lemma load_history_frame tr c cid :
  cid ≠ get_identifier c →
  price_history (snd (load_history tr c)) !! cid = price_history tr !! cid.
Proof.
  intros Hne. unfold load_history.
  destruct (files tr !! _) as [content|]; [|reflexivity].
  destruct (_ ≫= _); [|reflexivity]. simpl. now rewrite lookup_insert_ne.
Qed.

Lemma ensure_loaded_frame tr c cid :
  cid ≠ get_identifier c →
  price_history (ensure_loaded tr c) !! cid = price_history tr !! cid.
Proof.
  intros Hne. unfold ensure_loaded.
  destruct (price_history tr !! get_identifier c); [reflexivity|].
  now apply load_history_frame.
Qed.

Lemma get_highest_price_in_period_tracker tr c hours now :
  snd (get_highest_price_in_period tr c hours now) = ensure_loaded tr c.
Proof.
  unfold get_highest_price_in_period.
  now destruct (price_history (ensure_loaded tr c) !! _) as [[|x l]|].
Qed.

Lemma get_latest_price_tracker tr c :
  snd (get_latest_price tr c) = tr
  ∨ snd (get_latest_price tr c) = snd (load_history tr c).
Proof.
  unfold get_latest_price.
  destruct (price_history tr !! _) as [[|x l]|];
    [right | left | right]; try reflexivity; now destruct (load_history tr c).
Qed.

(** X9: the four queries of the store never change a file and never touch
    the cache of another card; for a card with a cached observation they
    change nothing at all. *)
Theorem queries_only_hydrate (tr : PriceTracker) (c : Card) (hours now : Z) :
  Forall (λ tr',
            files tr' = files tr
            ∧ (∀ cid, cid ≠ get_identifier c →
                 price_history tr' !! cid = price_history tr !! cid)
            ∧ (∀ x l, price_history tr !! get_identifier c = Some (x :: l) →
                 tr' = tr))
    [snd (get_latest_price tr c);
     snd (get_price_at_timeframe tr c hours now);
     snd (get_30_day_low tr c now);
     snd (get_highest_price_in_period tr c hours now)].
Proof.
  rewrite get_price_at_timeframe_tracker, get_30_day_low_tracker,
    get_highest_price_in_period_tracker.
  assert (He : files (ensure_loaded tr c) = files tr
               ∧ (∀ cid, cid ≠ get_identifier c →
                    price_history (ensure_loaded tr c) !! cid
                    = price_history tr !! cid)
               ∧ (∀ x l, price_history tr !! get_identifier c = Some (x :: l) →
                    ensure_loaded tr c = tr)).
  { split_and!; [apply ensure_loaded_files | apply ensure_loaded_frame |].
    intros x l Hx. unfold ensure_loaded. now rewrite Hx. }
  repeat constructor; try apply He.
  - destruct (get_latest_price_tracker tr c) as [-> | ->];
      [reflexivity | apply load_history_files].
  - intros cid Hne.
    destruct (get_latest_price_tracker tr c) as [-> | ->];
      [reflexivity | now apply load_history_frame].
  - intros x l Hx. unfold get_latest_price. now rewrite Hx.
Qed.

(** * Further properties of the evaluator *)

Lemma check_target_elem c current r :
  r ∈ check_target c current
  ↔ ∃ target, target_price c = Some target ∧ ¬ (target == 0)%Q
              ∧ (current <= target)%Q ∧ r = TargetReached current target.
Proof.
  unfold check_target. destruct (target_price c) as [t|].
  - destruct (truthy_price (Some t)) eqn:Ht; simpl.
    + apply truthy_price_Some in Ht.
      destruct (Qle_bool current t) eqn:Hle.
      * apply Qle_bool_iff in Hle. rewrite list_elem_of_singleton. split.
        -- intros ->. now exists t.
        -- now intros (t' & [= <-] & _ & _ & ->).
      * rewrite elem_of_nil. split; [tauto|].
        intros (t' & [= <-] & _ & H & _). apply Qle_bool_iff in H. congruence.
    + apply truthy_price_Some_false in Ht. rewrite elem_of_nil.
      split; [tauto|]. intros (t' & [= <-] & H & _). contradiction.
  - rewrite elem_of_nil. split; [tauto|]. now intros (t' & [=] & _).
Qed.

Lemma check_drop_elem th past current r :
  r ∈ check_drop th past current
  ↔ ∃ p past_price,
      past = Some p ∧ get_effective_price p = Some past_price
      ∧ ¬ (past_price == 0)%Q
      ∧ (price_drop_percent th <= drop_percent_of current past_price)%Q
      ∧ r = PriceDropped (drop_percent_of current past_price) past_price current
              (drop_timeframe_hours th).
Proof.
  unfold check_drop, drop_percent_of. destruct past as [p|];
    [|rewrite elem_of_nil; split; [tauto | now intros (? & ? & [=] & _)]].
  destruct (get_effective_price p) as [pp|] eqn:Hp;
    [|rewrite elem_of_nil; split;
      [tauto | intros (? & ? & [= <-] & H & _); congruence]].
  destruct (truthy_price (Some pp)) eqn:Ht.
  - apply truthy_price_Some in Ht.
    destruct (Qle_bool _ _) eqn:Hle.
    + apply Qle_bool_iff in Hle. rewrite list_elem_of_singleton. split.
      * intros ->. now exists p, pp.
      * intros (p' & pp' & [= <-] & H & _ & _ & ->).
        rewrite Hp in H. now injection H as <-.
    + rewrite elem_of_nil. split; [tauto|].
      intros (p' & pp' & [= <-] & H & _ & Hle' & _).
      rewrite Hp in H. injection H as <-.
      apply Qle_bool_iff in Hle'. congruence.
  - apply truthy_price_Some_false in Ht. rewrite elem_of_nil.
    split; [tauto|]. intros (p' & pp' & [= <-] & H & Hn & _).
    rewrite Hp in H. injection H as <-. contradiction.
Qed.

Lemma check_thirty_day_low_elem low current r :
  r ∈ check_thirty_day_low low current
  ↔ ∃ l, low = Some l ∧ ¬ (l == 0)%Q ∧ (current <= l)%Q
         ∧ r = ThirtyDayLow current l.
Proof.
  destruct low as [l|].
  - rewrite check_thirty_day_low_fires. split.
    + intros (-> & H0 & Hle). now exists l.
    + now intros (l' & [= <-] & H0 & Hle & ->).
  - simpl. rewrite elem_of_nil. split; [tauto | now intros (? & [=] & _)].
Qed.

Lemma check_inventory_elem th cp r :
  r ∈ check_inventory th cp
  ↔ 0 < listing_count cp ≤ low_inventory_threshold th
    ∧ r = LowInventory (listing_count cp).
Proof.
  unfold check_inventory.
  destruct (0 <? listing_count cp) eqn:H0; simpl.
  - apply Z.ltb_lt in H0.
    destruct (listing_count cp <=? low_inventory_threshold th) eqn:H1.
    + apply Z.leb_le in H1. rewrite list_elem_of_singleton. intuition lia.
    + apply Z.leb_gt in H1. rewrite elem_of_nil. intuition lia.
  - apply Z.ltb_ge in H0. rewrite elem_of_nil. intuition lia.
Qed.

(** The drop is the one the source computes: from 100 to 71 it is
    28.999999999999996 percent, which a threshold of 29 does not reach. *)
Example drop_percent_is_rounded :
  let th := {| price_drop_percent := 29; drop_timeframe_hours := 24;
               low_inventory_threshold := 5; spike_ignore_percent := 30;
               spike_ignore_hours := 6 |} in
  (exact_percent_change (71 # 1) (100 # 1) == -29)%Q
  ∧ (drop_percent_of (71 # 1) (100 # 1)
     == 8162774324609023 # 281474976710656)%Q
  ∧ check_drop th (Some (obs 76 (Some (100 # 1)%Q) None)) (71 # 1) = []
  ∧ check_drop th (Some (obs 76 (Some (100 # 1)%Q) None)) (70 # 1)
    = [PriceDropped (drop_percent_of (70 # 1) (100 # 1)) (100 # 1) (70 # 1) 24].
Proof. intros th. split_and!; vm_compute; reflexivity. Qed.

(** X10: the reasons an evaluation collects are exactly these: the target
    is reached (the card has a target that is not zero and the current price
    is at or below it); the price dropped (the observation nearest to the
    start of the drop window has an effective price that is not zero, and
    the drop from it, in binary64 as the source computes it, reaches the
    threshold); the 30-day low is matched; the inventory is low (between 1
    and the threshold listings). *)
Theorem collected_reasons_exactly (sys : AlertSystem) (c : Card)
    (cp : PriceData) (current : Q) (clk : clock) (r : reason) :
  r ∈ fst (collect_reasons sys c cp current clk)
  ↔ (∃ target, target_price c = Some target ∧ ¬ (target == 0)%Q
               ∧ (current <= target)%Q ∧ r = TargetReached current target)
    ∨ (∃ p past_price,
         fst (get_price_at_timeframe (price_tracker sys) c
                (drop_timeframe_hours (thresholds sys)) (t_drop clk)) = Some p
         ∧ get_effective_price p = Some past_price ∧ ¬ (past_price == 0)%Q
         ∧ (price_drop_percent (thresholds sys)
            <= drop_percent_of current past_price)%Q
         ∧ r = PriceDropped (drop_percent_of current past_price) past_price
                 current (drop_timeframe_hours (thresholds sys)))
    ∨ (∃ low, fst (get_30_day_low (price_tracker sys) c (t_low clk)) = Some low
              ∧ ¬ (low == 0)%Q ∧ (current <= low)%Q
              ∧ r = ThirtyDayLow current low)
    ∨ (0 < listing_count cp ≤ low_inventory_threshold (thresholds sys)
       ∧ r = LowInventory (listing_count cp)).
Proof.
  rewrite collect_reasons_unfold. simpl. rewrite !elem_of_app.
  now rewrite check_target_elem, check_drop_elem, check_thirty_day_low_elem,
    check_inventory_elem.
Qed.

Lemma sublist_singleton_or_nil {A} (l : list A) (x : A) :
  l = [] ∨ l = [x] → l `sublist_of` [x].
Proof. intros [-> | ->]; [apply sublist_nil_l | reflexivity]. Qed.

(** X11: the reasons come in the order of the checks, each check at most
    once: target, drop, 30-day low, inventory.  So there are at most four. *)
Theorem collected_reasons_in_order (sys : AlertSystem) (c : Card)
    (cp : PriceData) (current : Q) (clk : clock) :
  reason_rank <$> fst (collect_reasons sys c cp current clk)
    `sublist_of` [1; 2; 3; 4]%nat
  ∧ (length (fst (collect_reasons sys c cp current clk)) ≤ 4)%nat.
Proof.
  assert (H : reason_rank <$> fst (collect_reasons sys c cp current clk)
                `sublist_of` [1; 2; 3; 4]%nat).
  { rewrite collect_reasons_unfold. simpl. rewrite !fmap_app.
    change [1; 2; 3; 4]%nat with ([1] ++ [2] ++ [3] ++ [4])%nat.
    repeat apply sublist_app; apply sublist_singleton_or_nil.
    - unfold check_target. destruct (target_price c); [|now left].
      destruct (_ && _); [now right | now left].
    - unfold check_drop. destruct (fst _) as [p|]; [|now left].
      destruct (get_effective_price p); [|now left].
      destruct (truthy_price _); [|now left].
      destruct (Qle_bool _ _); [now right | now left].
    - unfold check_thirty_day_low. destruct (fst _); [|now left].
      destruct (_ && _); [now right | now left].
    - unfold check_inventory. destruct (_ && _); [now right | now left]. }
  split; [exact H|].
  apply sublist_length in H. now rewrite length_fmap in H.
Qed.

(** X12: an alert is the card and the observation that were evaluated, at
    the clock reading of its creation, with at least one reason, the reasons
    being the ones collected for the effective price of the observation; and
    it is only built with the gate open and the anti-spike check silent. *)
Theorem alert_is_well_formed (sys : AlertSystem) (c : Card) (cp : PriceData)
    (d : Z) (clk : clock) (alert : PriceAlert) :
  fst (check_alert_conditions sys c cp d clk) = Some alert →
  card alert = c ∧ current_price alert = cp
  ∧ alert_timestamp alert = t_alert clk
  ∧ alert_reasons alert ≠ []
  ∧ (∃ current, get_effective_price cp = Some current
                ∧ alert_reasons alert = fst (collect_reasons sys c cp current clk))
  ∧ is_spike sys c cp (t_spike clk) = false
  ∧ cooldown_active sys (get_identifier c) d (t_gate clk) = false.
Proof.
  rewrite check_alert_conditions_unfold.
  destruct (cooldown_active _ _ _ _); [discriminate|].
  destruct (get_effective_price cp) as [current|]; [|discriminate]. cbv zeta.
  destruct (is_spike _ _ _ _); [discriminate|].
  destruct (fst (collect_reasons _ _ _ _ _)) as [|r reasons] eqn:E;
    [discriminate|].
  simpl. intros [= <-]. simpl. split_and!; try done. now exists current.
Qed.

Lemma alert_is_well_formed_witness :
  ∃ alert,
    fst (check_alert_conditions quiet_system luffy
           (obs 100 (Some (45 # 1)%Q) None) 6 (all_at (100 * hour))) = Some alert
    ∧ card alert = luffy ∧ alert_reasons alert ≠ [].
Proof.
  eexists. split; [vm_compute; reflexivity|].
  pose proof (alert_is_well_formed quiet_system luffy
                (obs 100 (Some (45 # 1)%Q) None) 6 (all_at (100 * hour)) _
                ltac:(vm_compute; reflexivity)) as (H1 & _ & _ & H2 & _).
  split; [exact H1 | exact H2].
Defined.

Lemma get_latest_price_files tr c :
  files (snd (get_latest_price tr c)) = files tr.
Proof.
  destruct (get_latest_price_tracker tr c) as [-> | ->];
    [reflexivity | apply load_history_files].
Qed.

Lemma get_latest_price_frame tr c cid :
  cid ≠ get_identifier c →
  price_history (snd (get_latest_price tr c)) !! cid = price_history tr !! cid.
Proof.
  intros Hne. destruct (get_latest_price_tracker tr c) as [-> | ->];
    [reflexivity | now apply load_history_frame].
Qed.

(** X13: an evaluation never changes the thresholds or a file, and touches
    neither the cooldown nor the cache of another card.  The cooldown map
    changes only when an alert is returned, and then only at the key of the
    card, which gets the clock reading taken after the alert was built. *)
Theorem check_alert_conditions_frame (sys : AlertSystem) (c : Card)
    (cp : PriceData) (d : Z) (clk : clock) :
  let r := check_alert_conditions sys c cp d clk in
  thresholds (snd r) = thresholds sys
  ∧ files (price_tracker (snd r)) = files (price_tracker sys)
  ∧ (∀ cid, cid ≠ get_identifier c →
       last_alert_times (snd r) !! cid = last_alert_times sys !! cid
       ∧ price_history (price_tracker (snd r)) !! cid
         = price_history (price_tracker sys) !! cid)
  ∧ (fst r = None → last_alert_times (snd r) = last_alert_times sys)
  ∧ (is_Some (fst r) →
       last_alert_times (snd r)
       = <[get_identifier c := t_stamp clk]> (last_alert_times sys)).
Proof.
  intros r. unfold r. rewrite check_alert_conditions_unfold.
  assert (Hleft : ∀ o : option PriceAlert, o = None →
            thresholds sys = thresholds sys
            ∧ files (price_tracker sys) = files (price_tracker sys)
            ∧ (∀ cid, cid ≠ get_identifier c →
                 last_alert_times sys !! cid = last_alert_times sys !! cid
                 ∧ price_history (price_tracker sys) !! cid
                   = price_history (price_tracker sys) !! cid)
            ∧ (o = None → last_alert_times sys = last_alert_times sys)
            ∧ (is_Some o →
                 last_alert_times sys
                 = <[get_identifier c := t_stamp clk]> (last_alert_times sys))).
  { intros o ->. split_and!; try done; now intros [? [=]]. }
  assert (Hloaded : ∀ o : option PriceAlert, o = None →
            thresholds sys = thresholds sys
            ∧ files (ensure_loaded (price_tracker sys) c) = files (price_tracker sys)
            ∧ (∀ cid, cid ≠ get_identifier c →
                 last_alert_times sys !! cid = last_alert_times sys !! cid
                 ∧ price_history (ensure_loaded (price_tracker sys) c) !! cid
                   = price_history (price_tracker sys) !! cid)
            ∧ (o = None → last_alert_times sys = last_alert_times sys)
            ∧ (is_Some o →
                 last_alert_times sys
                 = <[get_identifier c := t_stamp clk]> (last_alert_times sys))).
  { intros o ->. split_and!; try done; try (now intros [? [=]]).
    - apply ensure_loaded_files.
    - intros cid Hne. split; [reflexivity | now apply ensure_loaded_frame]. }
  destruct (cooldown_active _ _ _ _); [now apply Hleft|].
  destruct (get_effective_price cp) as [current|]; [|now apply Hleft].
  cbv zeta.
  destruct (is_spike _ _ _ _); [now apply Hloaded|].
  destruct (fst (collect_reasons _ _ _ _ _)) as [|r0 reasons];
    [now apply Hloaded|].
  simpl. split_and!; try done.
  - now rewrite get_latest_price_files, ensure_loaded_files.
  - intros cid Hne. split.
    + now rewrite lookup_insert_ne.
    + rewrite get_latest_price_frame by done. now apply ensure_loaded_frame.
Qed.



(** * The batch runs *)

(** Asking for the latest observation twice gives the same answer. *)
Lemma get_latest_price_again tr c :
  fst (get_latest_price (snd (get_latest_price tr c)) c)
  = fst (get_latest_price tr c).
Proof.
  assert (Hload : price_history tr !! get_identifier c = None
                  ∨ price_history tr !! get_identifier c = Some [] →
            fst (get_latest_price (snd (load_history tr c)) c)
            = head (fst (load_history tr c))).
  { intros Hc. pose proof (load_history_twice tr c) as Ht.
    destruct (load_history_cases tr c) as [H | (content & h & _ & _ & H)];
      rewrite H in *; simpl in *.
    - unfold get_latest_price. destruct Hc as [-> | ->]; now rewrite H.
    - unfold get_latest_price at 1. simpl. rewrite lookup_insert_eq.
      destruct (sort_newest_first h) as [|x l] eqn:E; [|reflexivity].
      now rewrite Ht. }
  unfold get_latest_price at 2 3.
  destruct (price_history tr !! get_identifier c) as [[|x l]|] eqn:Hc.
  - destruct (load_history tr c) as [h tr']. simpl in *. apply Hload. now right.
  - simpl. unfold get_latest_price. now rewrite Hc.
  - destruct (load_history tr c) as [h tr']. simpl in *. apply Hload. now left.
Qed.

(** An evaluation of the store's latest observation builds no previous
    observation. *)
Lemma check_latest_no_previous sys c latest d clk alert :
  fst (get_latest_price (price_tracker sys) c) = Some latest →
  fst (check_alert_conditions sys c latest d clk) = Some alert →
  card alert = c ∧ previous_price alert = None ∧ alert_reasons alert ≠ [].
Proof.
  intros Hl Ha.
  destruct (alert_records_cooldown _ _ _ _ _ _ Ha) as (_ & Hr & ->).
  unfold make_alert; simpl. rewrite Hl, PriceData_eqb_refl. now split_and!.
Qed.

Lemma check_alert_conditions_keeps sys c cp d clk :
  thresholds (snd (check_alert_conditions sys c cp d clk)) = thresholds sys
  ∧ files (price_tracker (snd (check_alert_conditions sys c cp d clk)))
    = files (price_tracker sys).
Proof.
  rewrite check_alert_conditions_unfold.
  destruct (cooldown_active _ _ _ _); [now split|].
  destruct (get_effective_price cp) as [current|]; [|now split]. cbv zeta.
  destruct (is_spike _ _ _ _); [split; [reflexivity | apply ensure_loaded_files]|].
  destruct (fst (collect_reasons _ _ _ _ _));
    [split; [reflexivity | apply ensure_loaded_files]|].
  simpl. split; [reflexivity|].
  now rewrite get_latest_price_files, ensure_loaded_files.
Qed.

Lemma get_all_alerts_from_spec i sys cards d clocks :
  card <$> fst (get_all_alerts_from i sys cards d clocks)
    `sublist_of` filter (λ c, enabled c = true) cards
  ∧ Forall (λ a, previous_price a = None ∧ alert_reasons a ≠ [])
      (fst (get_all_alerts_from i sys cards d clocks))
  ∧ thresholds (snd (get_all_alerts_from i sys cards d clocks)) = thresholds sys
  ∧ files (price_tracker (snd (get_all_alerts_from i sys cards d clocks)))
    = files (price_tracker sys).
Proof.
  revert i sys; induction cards as [|c cards IH]; intros i sys; simpl.
  - split_and!; [reflexivity | constructor | reflexivity | reflexivity].
  - destruct (enabled c) eqn:He; simpl.
    2: { rewrite filter_cons_False by congruence. apply IH. }
    rewrite filter_cons_True by done.
    pose proof (get_latest_price_again (price_tracker sys) c) as Hagain.
    pose proof (get_latest_price_files (price_tracker sys) c) as Hfiles.
    destruct (get_latest_price (price_tracker sys) c) as [[latest|] tr] eqn:Hl;
      simpl in Hagain, Hfiles.
    2: { destruct (IH (S i) (with_tracker sys tr)) as (H1 & H2 & H3 & H4).
         split_and!; [now apply sublist_cons | exact H2 | exact H3 |].
         now rewrite H4. }
    pose proof (check_latest_no_previous (with_tracker sys tr) c latest d
                  (clocks i)) as Hprev.
    pose proof (check_alert_conditions_keeps (with_tracker sys tr) c latest d
                  (clocks i)) as [Hth Hf].
    destruct (check_alert_conditions (with_tracker sys tr) c latest d (clocks i))
      as [alert sys1]. simpl in Hprev, Hth, Hf.
    destruct (IH (S i) sys1) as (H1 & H2 & H3 & H4).
    destruct (get_all_alerts_from (S i) sys1 cards d clocks) as [alerts sys2].
    simpl in *.
    split_and!; [| | congruence | congruence].
    + destruct alert as [a|]; simpl.
      * destruct (Hprev a Hagain eq_refl) as (-> & _). now apply sublist_skip.
      * now apply sublist_cons.
    + destruct alert as [a|]; [|exact H2].
      constructor; [|exact H2].
      destruct (Hprev a Hagain eq_refl) as (_ & Hp & Hr). now split.
Qed.

(** X15: [get_all_alerts] returns its alerts in the order of the cards, at
    most one for each enabled card and none for a disabled one; it changes
    neither the thresholds nor a file. *)
Theorem get_all_alerts_in_order (sys : AlertSystem) (cards : list Card) (d : Z)
    (clocks : nat → clock) :
  card <$> fst (get_all_alerts sys cards d clocks)
    `sublist_of` filter (λ c, enabled c = true) cards
  ∧ thresholds (snd (get_all_alerts sys cards d clocks)) = thresholds sys
  ∧ files (price_tracker (snd (get_all_alerts sys cards d clocks)))
    = files (price_tracker sys).
Proof.
  destruct (get_all_alerts_from_spec 0 sys cards d clocks) as (H1 & _ & H3 & H4).
  now split_and!.
Qed.

Lemma get_price_change_percent_no_previous a :
  previous_price a = None → get_price_change_percent a = None.
Proof. unfold get_price_change_percent. now intros ->. Qed.

(** X16: [get_all_alerts] evaluates the latest observation of each card
    against itself, so none of its alerts has a previous observation, and
    none has a price change; each has at least one reason. *)
Theorem get_all_alerts_no_previous (sys : AlertSystem) (cards : list Card)
    (d : Z) (clocks : nat → clock) :
  Forall (λ a, previous_price a = None ∧ get_price_change_percent a = None
               ∧ alert_reasons a ≠ [])
    (fst (get_all_alerts sys cards d clocks)).
Proof.
  destruct (get_all_alerts_from_spec 0 sys cards d clocks) as (_ & H2 & _).
  eapply Forall_impl; [exact H2|]. simpl. intros a [Hp Hr].
  split_and!; [exact Hp | now apply get_price_change_percent_no_previous | exact Hr].
Qed.

Lemma check_prices_step_alert sys c fetched now_save w d clk alert :
  fst (check_prices_step sys c fetched now_save w d clk) = Some alert →
  card alert = c ∧ enabled c = true ∧ alert_reasons alert ≠ [].
Proof.
  unfold check_prices_step. destruct (enabled c); simpl; [|discriminate].
  destruct fetched as [pd|]; [|discriminate].
  destruct (get_effective_price pd); [|discriminate].
  intros Ha. destruct (alert_records_cooldown _ _ _ _ _ _ Ha) as (_ & Hr & ->).
  now split_and!.
Qed.

Lemma check_prices_from_in_order i sys cards d inputs :
  card <$> fst (check_prices_from i sys cards d inputs)
    `sublist_of` filter (λ c, enabled c = true) cards
  ∧ Forall (λ a, alert_reasons a ≠ []) (fst (check_prices_from i sys cards d inputs)).
Proof.
  revert i sys; induction cards as [|c cards IH]; intros i sys; simpl.
  - split; [reflexivity | constructor].
  - pose proof (check_prices_step_alert sys c (fetched (inputs i))
                  (now_save (inputs i)) (write (inputs i)) d
                  (readings (inputs i))) as Hstep.
    destruct (check_prices_step _ _ _ _ _ _ _) as [alert sys1]. simpl in Hstep.
    destruct (IH (S i) sys1) as [H1 H2].
    destruct (check_prices_from (S i) sys1 cards d inputs) as [alerts sys2].
    simpl in *. destruct alert as [a|].
    + destruct (Hstep a eq_refl) as (Hc & He & Hr).
      rewrite filter_cons_True by done. rewrite fmap_cons, Hc.
      split; [now apply sublist_skip | now constructor].
    + split; [|exact H2].
      destruct (enabled c) eqn:He.
      * rewrite filter_cons_True by done. now apply sublist_cons.
      * rewrite filter_cons_False by congruence. exact H1.
Qed.

(** The posts of [send_multiple_alerts], from a count [sent] and a number
    of requests [k] on. *)
Lemma send_multiple_alerts_fold n post_ok alerts sent k :
  foldl (λ '(sent_count, requests) alert,
           let '(ok, requests) := send_alert n post_ok alert requests in
           (if ok then sent_count + 1 else sent_count, requests))
        (sent, k) alerts
  = if notifier_enabled n
    then (sent + Z.of_nat (length (filter (λ j, post_ok j = true)
                                     (seq k (length alerts)))),
          (k + length alerts)%nat)
    else (sent, k).
Proof.
  revert sent k; induction alerts as [|a alerts IH]; intros sent k; simpl.
  - destruct (notifier_enabled n); [|reflexivity].
    f_equal; [lia | lia].
  - destruct (send_alert n post_ok a k) as [ok k'] eqn:Hs.
    rewrite IH. unfold send_alert in Hs.
    destruct (notifier_enabled n); simpl in Hs; injection Hs as <- <-;
      [|reflexivity].
    destruct (post_ok k) eqn:Hk.
    + rewrite filter_cons_True by done. simpl. f_equal; lia.
    + rewrite filter_cons_False by congruence. f_equal; lia.
Qed.

(** X17: with a webhook that is not configured (no URL, or the placeholder
    of the sample configuration) nothing is posted and nothing counts as
    sent; otherwise every alert is posted once, in order, and the result is
    the number of posts that succeeded, between 0 and the number of alerts. *)
Theorem send_multiple_alerts_count (url : string) (post_ok : nat → bool)
    (alerts : list PriceAlert) (requests : nat) :
  let r := send_multiple_alerts (new_notifier url) post_ok alerts requests in
  (url = ""%string ∨ url = "YOUR_DISCORD_WEBHOOK_URL_HERE"%string →
     r = (0, requests))
  ∧ (url ≠ ""%string → url ≠ "YOUR_DISCORD_WEBHOOK_URL_HERE"%string →
     snd r = (requests + length alerts)%nat
     ∧ fst r = Z.of_nat (length (filter (λ j, post_ok j = true)
                                   (seq requests (length alerts)))))
  ∧ 0 ≤ fst r ≤ Z.of_nat (length alerts).
Proof.
  intros r. unfold r, send_multiple_alerts.
  rewrite send_multiple_alerts_fold.
  assert (Hlen : (length (filter (λ j, post_ok j = true)
                            (seq requests (length alerts)))
                  ≤ length alerts)%nat).
  { etransitivity; [apply length_filter|]. now rewrite length_seq. }
  split_and!.
  - intros [-> | ->]; reflexivity.
  - intros H1 H2. simpl.
    destruct url as [|a url]; [done|].
    apply String.eqb_neq in H2. rewrite H2. simpl. split; [reflexivity | lia].
  - destruct (notifier_enabled _); simpl; lia.
  - destruct (notifier_enabled _); simpl; lia.
Qed.

Lemma send_multiple_alerts_count_witness :
  send_multiple_alerts (new_notifier "YOUR_DISCORD_WEBHOOK_URL_HERE")
    (λ _, true)
    [{| card := luffy; current_price := obs 100 (Some (45 # 1)%Q) None;
        previous_price := None;
        alert_reasons := [TargetReached (45 # 1) (50 # 1)];
        alert_timestamp := 100 * hour |}] 0
  = (0, 0%nat).
Proof.
  apply (proj1 (send_multiple_alerts_count "YOUR_DISCORD_WEBHOOK_URL_HERE"
                  (λ _, true) _ 0)).
  now right.
Defined.

(** X18: the alerts of a cycle of [check_prices] come in the order of the
    cards, at most one for each enabled card, each with at least one reason;
    the number of alerts sent is between 0 and their number. *)
Theorem check_prices_alerts_in_order (sys : AlertSystem) (n : DiscordNotifier)
    (cards : list Card) (d : Z) (inputs : nat → cycle_input)
    (post_ok : nat → bool) (requests : nat) :
  let '(alerts, _, sent, _) :=
    check_prices sys n cards d inputs post_ok requests in
  card <$> alerts `sublist_of` filter (λ c, enabled c = true) cards
  ∧ Forall (λ a, alert_reasons a ≠ []) alerts
  ∧ 0 ≤ sent ≤ Z.of_nat (length alerts).
Proof.
  unfold check_prices.
  destruct (check_prices_from_in_order 0 sys cards d inputs) as [H1 H2].
  destruct (check_prices_from 0 sys cards d inputs) as [alerts sys'].
  simpl in H1, H2.
  destruct alerts as [|a alerts].
  - split_and!; [exact H1 | exact H2 | simpl; lia | simpl; lia].
  - unfold send_multiple_alerts. rewrite send_multiple_alerts_fold.
    assert (Hlen : (length (filter (λ j, post_ok j = true)
                              (seq requests (length (a :: alerts))))
                    ≤ length (a :: alerts))%nat).
    { etransitivity; [apply length_filter|]. now rewrite length_seq. }
    destruct (notifier_enabled n); (split_and!; [exact H1 | exact H2 | lia | lia]).
Qed.

Lemma check_prices_from_idle i sys cards d inputs :
  (∀ j c, cards !! j = Some c →
          enabled c = false ∨ fetched (inputs (i + j)%nat) = None) →
  check_prices_from i sys cards d inputs = ([], sys).
Proof.
  revert i; induction cards as [|c cards IH]; intros i H; simpl; [reflexivity|].
  assert (Hstep : check_prices_step sys c (fetched (inputs i))
                    (now_save (inputs i)) (write (inputs i)) d
                    (readings (inputs i)) = (None, sys)).
  { unfold check_prices_step.
    destruct (H 0%nat c eq_refl) as [-> | Hf]; [reflexivity|].
    rewrite Nat.add_0_r in Hf. rewrite Hf. now destruct (negb (enabled c)). }
  rewrite Hstep, IH; [reflexivity|].
  intros j c' Hj. replace (S i + j)%nat with (i + S j)%nat by lia.
  now apply (H (S j)).
Qed.

(** X19: a cycle of [check_prices] in which every card is disabled or gets
    nothing from the scraper triggers no alert, posts nothing and leaves the
    evaluator, store included, as it was. *)
Theorem check_prices_idle_cycle (sys : AlertSystem) (n : DiscordNotifier)
    (cards : list Card) (d : Z) (inputs : nat → cycle_input)
    (post_ok : nat → bool) (requests : nat) :
  (∀ j c, cards !! j = Some c → enabled c = false ∨ fetched (inputs j) = None) →
  check_prices sys n cards d inputs post_ok requests = ([], sys, 0, requests).
Proof.
  intros H. unfold check_prices. now rewrite check_prices_from_idle.
Qed.

Lemma check_prices_idle_cycle_witness :
  check_prices quiet_system (new_notifier "https://discord.example/hook")
    [luffy] 6
    (λ _, {| fetched := None; now_save := 100 * hour; write := WriteOk;
             readings := all_at (100 * hour) |})
    (λ _, true) 0
  = ([], quiet_system, 0, 0%nat).
Proof.
  apply check_prices_idle_cycle.
  intros j c _. now right.
Defined.

(** * Keys, price changes and the scraper *)

Lemma space_free_append s t :
  space_free (s ++ t) = space_free s && space_free t.
Proof.
  induction s as [|a s IH]; simpl; [reflexivity|].
  now rewrite IH, andb_assoc.
Qed.

Lemma space_free_replace_spaces s : space_free (replace_spaces s) = true.
Proof.
  induction s as [|a s IH]; simpl; [reflexivity|]. rewrite IH, andb_true_r.
  destruct (Ascii.eqb a " ") eqn:E; [reflexivity|]. now rewrite E.
Qed.

Lemma space_free_concat parts :
  Forall (λ p, space_free p = true) parts →
  space_free (String.concat "_" parts) = true.
Proof.
  induction 1 as [|p parts Hp _ IH]; simpl; [reflexivity|].
  destruct parts as [|q parts]; [exact Hp|].
  rewrite !space_free_append, Hp. exact IH.
Qed.

(** X20: the key of a card holds no space, whatever its fields hold. *)
Theorem get_identifier_space_free (c : Card) :
  space_free (get_identifier c) = true.
Proof.
  unfold get_identifier. apply space_free_concat.
  apply Forall_forall. intros p Hp.
  apply list_elem_of_In, in_map_iff in Hp as (q & <- & _).
  apply space_free_replace_spaces.
Qed.

Lemma replace_spaces_idem s : replace_spaces (replace_spaces s) = replace_spaces s.
Proof.
  induction s as [|a s IH]; simpl; [reflexivity|]. rewrite IH. f_equal.
  destruct (Ascii.eqb a " ") eqn:E; [reflexivity|]. now rewrite E.
Qed.

Lemma truthy_str_replace_spaces o :
  truthy_str (replace_spaces <$> o) = truthy_str o.
Proof. now destruct o as [[|a s]|]. Qed.

(** X21: the key does not tell a space from an underscore, and does not
    look at the condition, the target price or the enabled flag: two cards
    whose name, set, rarity, language and serial number agree once spaces are
    replaced by underscores have the same key, hence the same history file
    and the same cooldown. *)
Theorem get_identifier_collision (c1 c2 : Card) :
  replace_spaces (name c1) = replace_spaces (name c2) →
  replace_spaces (card_set c1) = replace_spaces (card_set c2) →
  replace_spaces (rarity c1) = replace_spaces (rarity c2) →
  replace_spaces (language c1) = replace_spaces (language c2) →
  replace_spaces <$> number c1 = replace_spaces <$> number c2 →
  get_identifier c1 = get_identifier c2
  ∧ get_history_file (get_identifier c1) = get_history_file (get_identifier c2).
Proof.
  intros Hn Hs Hr Hl Hnum.
  assert (H : get_identifier c1 = get_identifier c2); [|now rewrite H].
  unfold get_identifier.
  rewrite <- (truthy_str_replace_spaces (number c1)),
    <- (truthy_str_replace_spaces (number c2)), Hnum.
  destruct (truthy_str _); simpl map.
  - rewrite Hn, Hs, Hr, Hl. do 4 f_equal.
    destruct (number c1), (number c2); simpl in *; congruence.
  - now rewrite Hn, Hs, Hr, Hl.
Qed.

Lemma get_identifier_collision_witness :
  get_identifier luffy
  = get_identifier
      {| name := "Monkey_D Luffy"; card_set := "OP01"; rarity := "SR";
         condition := "Damaged"; language := "English";
         number := Some "001"%string; target_price := None; enabled := false |}.
Proof.
  apply get_identifier_collision; reflexivity.
Defined.

(** X22: a price change is reported only for an alert with a previous
    observation and with effective prices, current and previous, that are
    not zero; it is the binary64 result of [((current - previous) /
    previous) * 100].  Over a positive previous price it is negative only
    when the price fell and positive only when the price rose, and it is
    zero when the two prices are equal. *)
Theorem get_price_change_percent_defined (a : PriceAlert) (p : Q) :
  get_price_change_percent a = Some p →
  ∃ prev cur pv,
    previous_price a = Some prev
    ∧ get_effective_price (current_price a) = Some cur
    ∧ get_effective_price prev = Some pv
    ∧ ¬ (cur == 0)%Q ∧ ¬ (pv == 0)%Q
    ∧ p = fmul (fdiv (fsub cur pv) pv) 100
    ∧ ((0 < pv)%Q → ((p < 0)%Q → (cur < pv)%Q) ∧ ((0 < p)%Q → (pv < cur)%Q))
    ∧ ((cur == pv)%Q → (p == 0)%Q).
Proof.
  unfold get_price_change_percent.
  destruct (previous_price a) as [prev|]; [|discriminate].
  destruct (get_effective_price (current_price a)) as [cur|];
    [|discriminate].
  destruct (get_effective_price prev) as [pv|] eqn:Hprev;
    [|simpl; rewrite orb_true_r; discriminate].
  destruct (truthy_price (Some cur)) eqn:Hc; [|discriminate].
  destruct (truthy_price (Some pv)) eqn:Hp; [|discriminate].
  apply truthy_price_Some in Hc, Hp. simpl.
  destruct (Qeq_bool pv 0); [discriminate|]. intros [= <-].
  exists prev, cur, pv. unfold default. split_and!; try done.
  - intros Hpos. split.
    + apply percent_negative, Hpos.
    + apply percent_positive, Hpos.
  - intros Heq. now apply percent_of_equal.
Qed.

Lemma get_price_change_percent_defined_witness :
  ∃ prev cur pv,
    previous_price alert_with_previous = Some prev
    ∧ get_effective_price (current_price alert_with_previous) = Some cur
    ∧ get_effective_price prev = Some pv
    ∧ ¬ (cur == 0)%Q ∧ ¬ (pv == 0)%Q
    ∧ fmul (fdiv (fsub (45 # 1) (40 # 1)) (40 # 1)) 100
      = fmul (fdiv (fsub cur pv) pv) 100
    ∧ ((0 < pv)%Q →
       ((fmul (fdiv (fsub (45 # 1) (40 # 1)) (40 # 1)) 100 < 0)%Q → (cur < pv)%Q)
       ∧ ((0 < fmul (fdiv (fsub (45 # 1) (40 # 1)) (40 # 1)) 100)%Q
          → (pv < cur)%Q))
    ∧ ((cur == pv)%Q
       → (fmul (fdiv (fsub (45 # 1) (40 # 1)) (40 # 1)) 100 == 0)%Q).
Proof.
  apply (get_price_change_percent_defined alert_with_previous).
  reflexivity.
Defined.

(** From 40 to 45 is a change of 12.5 percent. *)
Example get_price_change_percent_example :
  ∃ p, get_price_change_percent alert_with_previous = Some p
       ∧ (p == 25 # 2)%Q.
Proof. eexists. split; [reflexivity | vm_compute; reflexivity]. Qed.

Lemma clean_price_text_append decimal s t :
  clean_price_text decimal (s ++ t)
  = (clean_price_text decimal s ++ clean_price_text decimal t)%list.
Proof.
  induction s as [|a s IH]; simpl; [reflexivity|].
  destruct (is_digit decimal a || (a =? dot)%N); simpl; now rewrite IH.
Qed.

(** X23: a character that is neither a decimal digit (of any script) nor a
    dot (a currency sign, a minus sign, a comma, a space) makes no
    difference to the price that is parsed, wherever it stands: the sign of
    a negative price is lost, and a thousands separator is skipped. *)
Theorem parse_price_ignores_other_characters (decimal : N → option N)
    (s1 s2 : text) (a : N) :
  is_digit decimal a = false → a ≠ dot →
  _parse_price decimal (s1 ++ a :: s2) = _parse_price decimal (s1 ++ s2).
Proof.
  intros Hd Hdot. unfold _parse_price.
  rewrite !clean_price_text_append. simpl.
  apply N.eqb_neq in Hdot. now rewrite Hd, Hdot.
Qed.

Lemma parse_price_ignores_other_characters_witness :
  _parse_price ascii_digits (text_of_string "-1,234.50")
  = _parse_price ascii_digits (text_of_string "-1234.50").
Proof.
  apply (parse_price_ignores_other_characters ascii_digits
           (text_of_string "-1") (text_of_string "234.50") 44%N);
    [reflexivity | discriminate].
Defined.

(** A digit of another script counts with its value: an ASCII 1 followed by
    an Arabic-Indic 3 is the price 13, and the Arabic-Indic 3 alone is 3. *)
Example parse_price_reads_any_decimal_digit :
  (∃ q, _parse_price ascii_and_arabic_indic_digits [49; 1635]%N = Some q
        ∧ (q == 13)%Q)
  ∧ (∃ q, _parse_price ascii_and_arabic_indic_digits [1635]%N = Some q
          ∧ (q == 3)%Q).
Proof.
  split; eexists; (split; [reflexivity | vm_compute; reflexivity]).
Qed.

(** The price text of the source's docstring: 49.99 is read as the binary64
    nearest to it. *)
Example parse_price_rounds :
  ∃ q, _parse_price ascii_digits (text_of_string "$49.99") = Some q
       ∧ (q == 7035467042882847 # 140737488355328)%Q
       ∧ ¬ (q == 4999 # 100)%Q.
Proof.
  eexists. split_and!; [reflexivity | vm_compute; reflexivity|].
  vm_compute. discriminate.
Qed.

Lemma inject_N_nonneg n : (0 <= inject_Z (Z.of_N n))%Q.
Proof. unfold Qle. simpl. lia. Qed.

Lemma float_of_digits_and_dots_nonneg decimal s q :
  float_of_digits_and_dots decimal s = Some q → (0 <= q)%Q.
Proof.
  unfold float_of_digits_and_dots.
  destruct (split_at_dot s) as [whole [fraction|]].
  - destruct (has_dot fraction); [discriminate|].
    assert (H : (0 <= inject_Z (Z.of_N (digits_value decimal 0 whole))
                      + inject_Z (Z.of_N (digits_value decimal 0 fraction))
                        / inject_Z (10 ^ Z.of_nat (length fraction)))%Q).
    { assert (Hpos : (0 < inject_Z (10 ^ Z.of_nat (length fraction)))%Q).
      { assert (0 < 10 ^ Z.of_nat (length fraction))
          by (apply Z.pow_pos_nonneg; lia).
        unfold Qlt. simpl. lia. }
      rewrite <- (Qplus_0_l 0) at 1.
      apply Qplus_le_compat; [apply inject_N_nonneg|].
      apply Qle_shift_div_l; [exact Hpos|].
      rewrite Qmult_0_l. apply inject_N_nonneg. }
    apply round64_nonneg in H.
    destruct whole, fraction; try discriminate; now intros [= <-].
  - destruct whole; [discriminate|]. intros [= <-].
    apply round64_nonneg, inject_N_nonneg.
Qed.

(** X24: a parsed price is never negative. *)
Theorem parse_price_nonneg (decimal : N → option N) (price_text : text)
    (q : Q) :
  _parse_price decimal price_text = Some q → (0 <= q)%Q.
Proof.
  unfold _parse_price. destruct (clean_price_text decimal price_text) eqn:E;
    [discriminate|].
  apply float_of_digits_and_dots_nonneg.
Qed.

Lemma parse_price_nonneg_witness : (0 <= round64 (4999 # 100))%Q.
Proof.
  apply (parse_price_nonneg ascii_digits (text_of_string "$49.99")).
  vm_compute. reflexivity.
Defined.

Lemma clean_price_text_facts decimal s :
  digits_and_dots decimal (clean_price_text decimal s) = true
  ∧ has_digit decimal (clean_price_text decimal s) = has_digit decimal s
  ∧ dot_count (clean_price_text decimal s) = dot_count s.
Proof.
  induction s as [|a s (H1 & H2 & H3)]; simpl; [done|].
  destruct (is_digit decimal a) eqn:Hd, (a =? dot)%N eqn:Hdot; simpl;
    rewrite ?Hd, ?Hdot, ?H1, ?H2, ?H3; simpl; split_and!; reflexivity.
Qed.

Lemma no_dot_no_digit_empty decimal s :
  digits_and_dots decimal s = true → dot_count s = 0%nat →
  has_digit decimal s = false → s = [].
Proof.
  destruct s as [|a s]; [reflexivity|]. simpl.
  destruct (is_digit decimal a); simpl; [discriminate|].
  destruct (a =? dot)%N; simpl; discriminate.
Qed.

Lemma has_dot_count s : has_dot s = negb (dot_count s =? 0)%nat.
Proof.
  induction s as [|a s IH]; simpl; [reflexivity|].
  destruct (a =? dot)%N; simpl; [reflexivity | exact IH].
Qed.

Lemma split_at_dot_facts decimal s :
  is_digit decimal dot = false →
  digits_and_dots decimal s = true →
  match split_at_dot s with
  | (whole, None) => whole = s ∧ dot_count s = 0%nat
  | (whole, Some fraction) =>
      digits_and_dots decimal whole = true
      ∧ digits_and_dots decimal fraction = true
      ∧ dot_count whole = 0%nat
      ∧ dot_count s = S (dot_count fraction)
      ∧ has_digit decimal s
        = has_digit decimal whole || has_digit decimal fraction
  end.
Proof.
  intros Hnd. induction s as [|a s IH]; simpl; [done|].
  intros [Ha Hs]%andb_true_iff.
  destruct (a =? dot)%N eqn:Hdot; simpl.
  - split_and!; try done.
    apply N.eqb_eq in Hdot. subst a. now rewrite Hnd.
  - specialize (IH Hs).
    destruct (split_at_dot s) as [whole [fraction|]]; simpl; rewrite ?Hdot.
    + destruct IH as (H1 & H2 & H3 & H4 & H5).
      rewrite Ha, H1, H5, orb_assoc. now split_and!.
    + destruct IH as [-> H]. now split.
Qed.

(** X25: with a table of digits that does not hold the dot, a price text
    parses to nothing exactly when it holds no decimal digit, or two or more
    dots (as a range of prices does). *)
Theorem parse_price_none (decimal : N → option N) (price_text : text) :
  is_digit decimal dot = false →
  _parse_price decimal price_text = None
  ↔ has_digit decimal price_text = false ∨ (2 ≤ dot_count price_text)%nat.
Proof.
  intros Hnd. unfold _parse_price.
  destruct (clean_price_text_facts decimal price_text) as (Hdd & Hdig & Hdots).
  rewrite <- Hdig, <- Hdots.
  destruct (clean_price_text decimal price_text) as [|a s] eqn:E;
    [simpl; tauto|].
  rewrite <- E in *. clear E.
  pose proof (split_at_dot_facts decimal _ Hnd Hdd) as Hsplit.
  unfold float_of_digits_and_dots.
  destruct (split_at_dot (clean_price_text decimal price_text))
    as [whole [fraction|]].
  - destruct Hsplit as (Hw & Hf & Hw0 & Hcount & Hdigits).
    rewrite Hcount, Hdigits, has_dot_count.
    destruct (dot_count fraction) as [|k] eqn:Hk; simpl.
    + destruct whole as [|w whole].
      * destruct fraction as [|f fraction].
        -- simpl. split; [now left | reflexivity].
        -- split; [discriminate|]. intros [H | H]; [|lia].
           simpl in H.
           pose proof (no_dot_no_digit_empty decimal _ Hf Hk H). discriminate.
      * split; [destruct fraction; discriminate|]. intros [H | H]; [|lia].
        apply orb_false_iff in H as [H _].
        pose proof (no_dot_no_digit_empty decimal _ Hw Hw0 H). discriminate.
    + split; [intros _; right; lia | reflexivity].
  - destruct Hsplit as [-> H0]. rewrite H0.
    destruct (clean_price_text decimal price_text) as [|w whole] eqn:E.
    + split; [now left | reflexivity].
    + split; [discriminate|]. intros [H | H]; [|lia].
      rewrite <- E in *.
      pose proof (no_dot_no_digit_empty decimal _ Hdd H0 H) as Hempty.
      rewrite E in Hempty. discriminate.
Qed.

(** A range of prices holds two dots and parses to nothing. *)
Lemma parse_price_none_witness :
  _parse_price ascii_digits (text_of_string "$1.50 - $2.75") = None
  ↔ has_digit ascii_digits (text_of_string "$1.50 - $2.75") = false
    ∨ (2 ≤ dot_count (text_of_string "$1.50 - $2.75"))%nat.
Proof.
  apply (parse_price_none ascii_digits (text_of_string "$1.50 - $2.75")).
  reflexivity.
Defined.

Lemma parse_price_some_nonneg decimal o q :
  (text ← o; _parse_price decimal text) = Some q → (0 <= q)%Q.
Proof.
  destruct o as [text|]; [|discriminate]. simpl. unfold _parse_price.
  destruct (clean_price_text decimal text); [discriminate|].
  apply float_of_digits_and_dots_nonneg.
Qed.

(** X26: an observation that the scraper returns carries the key of the
    card, the clock reading and a usable URL; its prices and its listing
    count are not negative; and its effective price is defined. *)
Theorem get_price_data_result (decimal : N → option N) (c : Card)
    (product_url searched : option string)
    (page : option product_page) (now : Z) (pd : PriceData) :
  get_price_data decimal c product_url searched page now = Some pd →
  card_id pd = get_identifier c
  ∧ timestamp pd = now
  ∧ truthy_str (tcgplayer_url pd) = true
  ∧ 0 ≤ listing_count pd
  ∧ (∀ m, market_price pd = Some m → (0 <= m)%Q)
  ∧ (∀ l, lowest_price pd = Some l → (0 <= l)%Q)
  ∧ ∃ q, get_effective_price pd = Some q ∧ (0 <= q)%Q.
Proof.
  unfold get_price_data.
  set (url := if truthy_str product_url then product_url else searched).
  destruct (truthy_str url) eqn:Hurl; [|discriminate]. simpl.
  destruct page as [pg|]; [|discriminate].
  set (built := {| card_id := get_identifier c; timestamp := now;
                   market_price := _; lowest_price := _;
                   listing_count := _; tcgplayer_url := url |}).
  assert (Hm : ∀ m, market_price built = Some m → (0 <= m)%Q)
    by (intros m; apply parse_price_some_nonneg).
  assert (Hl : ∀ l, lowest_price built = Some l → (0 <= l)%Q)
    by (intros l; apply parse_price_some_nonneg).
  destruct (get_effective_price built) as [q|] eqn:Hq; [|discriminate].
  intros [= <-]. split_and!; try done.
  - simpl. destruct (sellers pg); simpl; lia.
  - exists q. split; [exact Hq|].
    unfold get_effective_price in Hq.
    destruct (truthy_price (market_price built)); [now apply Hm | now apply Hl].
Qed.

Lemma get_price_data_result_witness :
  ∃ q, get_effective_price
         {| card_id := get_identifier luffy; timestamp := 100 * hour;
            market_price := Some (round64 (4999 # 100));
            lowest_price := None;
            listing_count := 12;
            tcgplayer_url := Some "https://www.tcgplayer.com/product/1"%string |}
       = Some q ∧ (0 <= q)%Q.
Proof.
  apply (get_price_data_result ascii_digits luffy
           (Some "https://www.tcgplayer.com/product/1"%string) None
           (Some {| market_price_text := Some (text_of_string "$49.99");
                    lowest_price_text := None; sellers := Some 12%N |})
           (100 * hour)).
  vm_compute. reflexivity.
Defined.

(** X27: in [check_prices], an observation that the scraper returned for
    an enabled card is saved and then always evaluated (the log line never
    fails on it); and when the save completes, an alert on it has no previous
    observation and no price change. *)
Theorem scraped_observation_is_evaluated (decimal : N → option N)
    (sys : AlertSystem) (c : Card)
    (product_url searched : option string) (page : option product_page)
    (now now_save : Z) (w : write_outcome) (d : Z) (clk : clock) (pd : PriceData) :
  enabled c = true →
  get_price_data decimal c product_url searched page now = Some pd →
  check_prices_step sys c (Some pd) now_save w d clk
  = check_alert_conditions
      (with_tracker sys (save_price_data (price_tracker sys) pd now_save w))
      c pd d clk
  ∧ (∀ olds alert,
       w = WriteOk →
       persisted_records (price_tracker sys) (get_identifier c) = Some olds →
       fst (check_prices_step sys c (Some pd) now_save w d clk) = Some alert →
       previous_price alert = None ∧ get_price_change_percent alert = None).
Proof.
  intros He Hpd.
  assert (Hid : card_id pd = get_identifier c).
  { unfold get_price_data in Hpd.
    destruct (negb _); [discriminate|]. destruct page; [|discriminate].
    destruct (get_effective_price _); [|discriminate]. now injection Hpd as <-. }
  assert (Heff : is_Some (get_effective_price pd)).
  { unfold get_price_data in Hpd.
    destruct (negb _); [discriminate|]. destruct page; [|discriminate].
    destruct (get_effective_price _) eqn:E; [|discriminate].
    injection Hpd as <-. now rewrite E. }
  destruct Heff as [q Hq].
  assert (Hstep : check_prices_step sys c (Some pd) now_save w d clk
                  = check_alert_conditions
                      (with_tracker sys
                         (save_price_data (price_tracker sys) pd now_save w))
                      c pd d clk).
  { unfold check_prices_step. now rewrite He, Hq. }
  split; [exact Hstep|].
  intros olds alert -> Hp Ha. rewrite Hstep in Ha.
  assert (previous_price alert = None) as Hprev.
  { destruct (check_latest_no_previous
                (with_tracker sys
                   (save_price_data (price_tracker sys) pd now_save WriteOk))
                c pd d clk alert) as (_ & H & _);
      [|exact Ha | exact H].
    simpl. apply (save_price_data_ok_latest _ _ _ _ olds); [done|].
    now rewrite Hid. }
  split; [exact Hprev | now apply get_price_change_percent_no_previous].
Qed.

Lemma scraped_observation_is_evaluated_witness :
  let pd := {| card_id := get_identifier luffy; timestamp := 100 * hour;
               market_price := Some (round64 (4999 # 100));
               lowest_price := None;
               listing_count := 12;
               tcgplayer_url :=
                 Some "https://www.tcgplayer.com/product/1"%string |} in
  check_prices_step quiet_system luffy (Some pd)
    (100 * hour) WriteOk 6 (all_at (100 * hour))
  = check_alert_conditions
      (with_tracker quiet_system
         (save_price_data (price_tracker quiet_system) pd
            (100 * hour) WriteOk))
      luffy pd 6 (all_at (100 * hour)).
Proof.
  intros pd.
  apply (scraped_observation_is_evaluated ascii_digits quiet_system luffy
           (Some "https://www.tcgplayer.com/product/1"%string) None
           (Some {| market_price_text := Some (text_of_string "$49.99");
                    lowest_price_text := None; sellers := Some 12%N |})
           (100 * hour));
    [reflexivity | vm_compute; reflexivity].
Defined.

(** * Start-up *)






(** Read as YAML reads it, [number: 001] is an integer and stops the
    start-up; quoted, it is the serial number of the card. *)
Example load_cards_integer_number :
  _load_cards empty_tracker [config_with_integer_number] = None
  ∧ fst <$> _load_cards empty_tracker [config_of_luffy] = Some [luffy].
Proof. split; reflexivity. Qed.


(** * Direction of the rules, order of the cache *)

(** X29: with a positive drop threshold, the drop rule fires over a
    positive past price only when the current price is below it; with a
    positive spike threshold, the anti-spike check vetoes over a positive
    past price only when the current price is above it. *)
Theorem rules_follow_price_direction (sys : AlertSystem) (c : Card)
    (cp : PriceData) (current : Q) (clk : clock) :
  get_effective_price cp = Some current →
  ((0 < price_drop_percent (thresholds sys))%Q →
   ∀ dp pp cur h,
     PriceDropped dp pp cur h ∈ fst (collect_reasons sys c cp current clk) →
     (0 < pp)%Q → (current < pp)%Q)
  ∧ ((0 < spike_ignore_percent (thresholds sys))%Q →
     is_spike sys c cp (t_spike clk) = true →
     ∃ past pp,
       fst (get_price_at_timeframe (price_tracker sys) c
              (spike_ignore_hours (thresholds sys)) (t_spike clk)) = Some past
       ∧ get_effective_price past = Some pp
       ∧ ((0 < pp)%Q → (pp < current)%Q)).
Proof.
  intros Heff. split.
  - intros Hthr dp pp cur h Hin Hpp.
    rewrite collect_reasons_unfold in Hin. simpl in Hin.
    rewrite !elem_of_app in Hin.
    destruct Hin as [Hin | [Hin | [Hin | Hin]]].
    + apply check_target_elem in Hin as (? & _ & _ & _ & [=]).
    + apply check_drop_elem in Hin as (p & pp' & _ & _ & _ & Hle & Hr).
      injection Hr as -> -> -> ->.
      apply (percent_positive _ _ pp' Hpp). unfold drop_percent_of in Hle. lra.
    + apply check_thirty_day_low_elem in Hin as (? & _ & _ & _ & [=]).
    + apply check_inventory_elem in Hin as (_ & [=]).
  - intros Hthr Hs.
    apply is_spike_true in Hs
      as (cur & past & pp & Hcur & _ & Hpast & Hpp & _ & Hle).
    rewrite Heff in Hcur. injection Hcur as <-.
    exists past, pp. split_and!; [exact Hpast | exact Hpp |].
    intros Hpos.
    apply (percent_positive _ _ pp Hpos). unfold spike_percent in Hle. lra.
Qed.

Lemma rules_follow_price_direction_witness :
  ∃ past pp,
    fst (get_price_at_timeframe (price_tracker spiking_system) luffy
           (spike_ignore_hours (thresholds spiking_system))
           (t_spike (all_at (100 * hour)))) = Some past
    ∧ get_effective_price past = Some pp
    ∧ ((0 < pp)%Q → (pp < 45 # 1)%Q).
Proof.
  apply (proj2 (rules_follow_price_direction spiking_system luffy
                  (obs 100 (Some (45 # 1)%Q) None) (45 # 1)%Q
                  (all_at (100 * hour)) eq_refl));
    [reflexivity | vm_compute; reflexivity].
Defined.

(** X30: a save that completes keeps the cache of the card newest first
    when the cache was newest first and the new observation is at least as
    new as every cached one; the new observation is then the head. *)
Theorem save_keeps_cache_newest_first (tr : PriceTracker) (pd : PriceData)
    (now : Z) (olds : list PriceData) :
  persisted_records tr (card_id pd) = Some olds →
  newest_first (default [] (price_history tr !! card_id pd)) →
  (∀ y, y ∈ default [] (price_history tr !! card_id pd) →
        timestamp y ≤ timestamp pd) →
  price_history (save_price_data tr pd now WriteOk) !! card_id pd
    = Some (pd :: default [] (price_history tr !! card_id pd))
  ∧ newest_first (pd :: default [] (price_history tr !! card_id pd)).
Proof.
  intros Hp Hsorted Hnew.
  destruct (save_price_data_ok tr pd now olds Hp) as (data & _ & -> & _).
  simpl. rewrite lookup_insert_eq. split; [reflexivity|].
  constructor; [exact Hsorted|]. now apply Forall_forall.
Qed.

Lemma save_keeps_cache_newest_first_witness :
  newest_first
    (obs 100 (Some (45 # 1)%Q) None
       :: default [] (price_history cached_tracker
                        !! card_id (obs 100 (Some (45 # 1)%Q) None))).
Proof.
  assert (E : default [] (price_history cached_tracker
                            !! card_id (obs 100 (Some (45 # 1)%Q) None))
              = [obs 99 (Some (40 # 1)%Q) None])
    by (vm_compute; reflexivity).
  apply (save_keeps_cache_newest_first cached_tracker
           (obs 100 (Some (45 # 1)%Q) None) (100 * hour) []).
  - vm_compute. reflexivity.
  - rewrite E. apply SSorted_cons; [apply SSorted_nil | apply Forall_nil_2].
  - intros y Hy. rewrite E in Hy.
    apply list_elem_of_singleton in Hy as ->. vm_compute. discriminate.
Defined.

(** Saving an observation older than the cached head puts it first all the
    same: the cache is then no longer newest first. *)
Example save_out_of_order :
  (λ h : list PriceData, timestamp <$> h)
    <$> (price_history
           (save_price_data cached_tracker (obs 50 (Some (45 # 1)%Q) None)
              (100 * hour) WriteOk) !! get_identifier luffy)
  = Some [50 * hour; 99 * hour].
Proof. vm_compute. reflexivity. Qed.
